(** * Supabase MCP server: validation and query-construction layer

    A shallow embedding of [supabase_mcp/utils.py], [supabase_mcp/database.py],
    [supabase_mcp/constants.py], [supabase_mcp/exceptions.py] and
    [supabase_mcp/types.py].

    The Python code is dynamically typed: the validators are called on
    arbitrary values (the unit tests pass [None], strings and lists where a
    dictionary is expected).  Values are therefore a tagged union
    [PyValue]; dictionaries are association lists in insertion order, which
    is the order [dict.items()] iterates in.

    The Supabase client is an external collaborator.  Its fluent builder is
    modelled freely, a query being the list of builder calls made on it, and
    its terminal [execute] is a parameter of the development: a function from
    the query and the state of the store to an outcome and a new state. *)

From Stdlib Require Import String Ascii List ZArith Lia Bool Arith DecimalString.
Import ListNotations.
Open Scope string_scope.

Set Implicit Arguments.

(** ** Python values *)

Module Py.

(** [VFloat m e] stands for the float [m * 2^e]; only its truth value and
    its not being an [int] or a [str] are ever observed by the code. *)
#[warnings="-register-all"]
Inductive PyValue : Type :=
| VNone
| VBool (b : bool)
| VInt (n : Z)
| VFloat (m e : Z)
| VStr (s : string)
| VList (l : list PyValue)
| VDict (items : list (string * PyValue)).

(** [bool(v)]: the truth value the [if] and [not] of the source test. *)
Definition truthy (v : PyValue) : bool :=
  match v with
  | VNone => false
  | VBool b => b
  | VInt n => negb (n =? 0)%Z
  | VFloat m _ => negb (m =? 0)%Z
  | VStr s => negb (String.length s =? 0)%nat
  | VList l => negb (length l =? 0)%nat
  | VDict d => negb (length d =? 0)%nat
  end.

(** [isinstance(v, str)] *)
Definition is_str (v : PyValue) : bool :=
  match v with VStr _ => true | _ => false end.

(** [isinstance(v, int)]: [bool] is a subclass of [int]. *)
Definition is_int (v : PyValue) : bool :=
  match v with VInt _ | VBool _ => true | _ => false end.

(** The integer an [int] instance compares as ([True] is 1, [False] is 0). *)
Definition int_value (v : PyValue) : Z :=
  match v with
  | VInt n => n
  | VBool true => 1
  | _ => 0
  end.

(** [isinstance(v, dict)] *)
Definition is_dict (v : PyValue) : bool :=
  match v with VDict _ => true | _ => false end.

(** [len(v)], which raises [TypeError] on an object without a length. *)
Definition py_len (v : PyValue) : option nat :=
  match v with
  | VStr s => Some (String.length s)
  | VList l => Some (length l)
  | VDict d => Some (length d)
  | _ => None
  end.

(** Characters are code points below 256.  [str.isspace] on that range:
    TAB..CR, FS..US, SPACE, NEL and NBSP. *)
Definition is_space (c : ascii) : bool :=
  let n := nat_of_ascii c in
  ((9 <=? n) && (n <=? 13) || (28 <=? n) && (n <=? 32)
   || (n =? 133) || (n =? 160))%nat.

(** [s.lstrip()] *)
Fixpoint lstrip (s : string) : string :=
  match s with
  | EmptyString => EmptyString
  | String c s' => if is_space c then lstrip s' else s
  end.

(** [s.rstrip()] *)
Fixpoint rstrip (s : string) : string :=
  match s with
  | EmptyString => EmptyString
  | String c s' =>
      match rstrip s' with
      | EmptyString => if is_space c then EmptyString else String c EmptyString
      | r => String c r
      end
  end.

(** [s.strip()] *)
Definition strip (s : string) : string := rstrip (lstrip s).

(** Every character of [s] is whitespace (true of the empty string). *)
Fixpoint all_space (s : string) : bool :=
  match s with
  | EmptyString => true
  | String c s' => is_space c && all_space s'
  end.

(** Decimal rendering of a non-negative integer, as an f-string prints it. *)
Definition str_of_nat (n : nat) : string :=
  NilZero.string_of_uint (Nat.to_uint n).

End Py.
Export Py.

(** ** exceptions.py *)

Definition Details := list (string * string).

(** The exception classes the layer raises, with the attributes their
    constructors set.  [SupabaseMCPError.__init__] stores [details or {}].
    [TypeError] and [AttributeError] are the built-in exceptions raised by
    [len] and by attribute lookup on a value of the wrong type. *)
Inductive PyExn : Type :=
| ValidationError (message : string) (details : Details)
| QueryExecutionError (message : string) (table_name operation : string)
                      (details : Details)
| TypeError (message : string)
| AttributeError (message : string).

Inductive Result (A : Type) : Type :=
| Ok (a : A)
| Raise (e : PyExn).
Arguments Ok {A} a.
Arguments Raise {A} e.

(** [raise ValidationError(msg)] *)
Definition validation_error {A} (msg : string) : Result A :=
  Raise (ValidationError msg []).

(** ** constants.py *)

Inductive ResponseStatus : Type := SUCCESS | ERROR.

(** [status.value] *)
Definition status_value (s : ResponseStatus) : string :=
  match s with
  | SUCCESS => "success"
  | ERROR => "error"
  end.

Definition DEFAULT_COLUMNS : string := "*".
Definition DEFAULT_ASCENDING : bool := true.

(** ** types.py *)

Definition TableRow := list (string * PyValue).
Definition TableData := list TableRow.

Record OperationResponse : Type := mkResponse {
  data : option TableData;
  count : nat;
  status : string;
  message : option string
}.

(** ** utils.py: validators *)

Definition validate_table_name (table_name : PyValue) : Result unit :=
  match table_name with
  | VStr s =>
      if negb (truthy table_name) || negb (truthy (VStr (strip s)))
      then validation_error "Table name cannot be empty"
      else Ok tt
  | _ => (* falsy, or not an instance of str *)
      validation_error "Table name cannot be empty"
  end.

Definition validate_limit (limit : PyValue) : Result unit :=
  match limit with
  | VNone => Ok tt
  | _ =>
      if negb (is_int limit) || (int_value limit <=? 0)%Z
      then validation_error "Limit must be a positive integer"
      else Ok tt
  end.

Definition validate_filters (filters : PyValue) : Result unit :=
  match filters with
  | VNone => Ok tt
  | _ =>
      if negb (is_dict filters)
      then validation_error "Filters must be a dictionary"
      else if negb (truthy filters)
      then validation_error "Filters dictionary cannot be empty"
      else Ok tt
  end.

Definition validate_updates (updates : PyValue) : Result unit :=
  if negb (is_dict updates)
  then validation_error "Updates must be a dictionary"
  else if negb (truthy updates)
  then validation_error "Updates dictionary cannot be empty"
  else Ok tt.

(** ** utils.py: the response envelope *)

Definition create_response (data : option TableData) (status : ResponseStatus)
           (message : option string) : OperationResponse :=
  {| data := data;
     count := match data with
              | Some rows => if negb (length rows =? 0)%nat then length rows else 0
              | None => 0
              end;
     status := status_value status;
     message := message |}.

(** ** The external client *)

(** A call on the client's fluent builder:
    [client.table(name)], [.select(columns)], [.insert(records)],
    [.update(updates)], [.delete()], [.eq(column, value)],
    [.order(column, ascending=...)] and [.limit(n)]. *)
Inductive Call : Type :=
| CTable (name : PyValue)
| CSelect (columns : string)
| CInsert (records : PyValue)
| CUpdate (updates : PyValue)
| CDelete
| CEq (column : string) (value : PyValue)
| COrder (column : string) (ascending : bool)
| CLimit (n : PyValue).

(** A query object is the chain of builder calls that produced it, oldest
    first. *)
Definition Query := list Call.

(** The equality constraints a query carries, in the order they were
    applied.  The store conjoins them. *)
Fixpoint eq_constraints (q : Query) : list (string * PyValue) :=
  match q with
  | [] => []
  | CEq c v :: q' => (c, v) :: eq_constraints q'
  | _ :: q' => eq_constraints q'
  end.

(** What [query.execute()] does: it raises an exception, of which the layer
    reads [str(e)] only, or returns a response object, of which the layer
    reads the [data] attribute only. *)
Inductive ExecOutcome : Type :=
| Raised (original_error : string)
| Returned (response_data : option TableData).

(** What the layer did to the client: a builder call, or an [execute] of a
    query together with what came back. *)
Inductive Event : Type :=
| Built (c : Call)
| Executed (q : Query) (o : ExecOutcome).

Definition is_execute (e : Event) : bool :=
  match e with Executed _ _ => true | Built _ => false end.

(** Number of [execute] calls in a trace. *)
Definition executions (tr : list Event) : nat :=
  length (filter is_execute tr).

(** ** Stores used to exercise the model

    The state of each is the number of queries it has executed. *)

(** A store in which no row ever matches. *)
Definition no_match_store (q : Query) (n : nat) : ExecOutcome * nat :=
  (Returned (Some []), S n).

(** A store whose [execute] always raises. *)
Definition broken_store (q : Query) (n : nat) : ExecOutcome * nat :=
  (Raised "Database error", S n).

(** A store that answers every query with one row. *)
Definition one_row_store (q : Query) (n : nat) : ExecOutcome * nat :=
  (Returned (Some [[("id", VInt 1); ("name", VStr "Test")]]), S n).

(** ** server.py: entering the lifespan

    [supabase_lifespan] up to its [yield]: the two environment variables
    are read, the client is created and wrapped.  [os.getenv] and
    [create_client] are parameters. *)

Definition ENV_SUPABASE_URL : string := "SUPABASE_URL".
Definition ENV_SUPABASE_SERVICE_KEY : string := "SUPABASE_SERVICE_KEY".
Definition MISSING_ENV_VARS : string :=
  "Missing environment variables. Please set SUPABASE_URL and SUPABASE_SERVICE_KEY.".

(** [DatabaseOperations.__init__] keeps the client it is given. *)
Record DatabaseOperations (C : Type) : Type := mkDatabaseOperations {
  ops_client : C
}.

Record SupabaseContext (C : Type) : Type := mkSupabaseContext {
  client : C;
  db_ops : DatabaseOperations C
}.

(** What [create_client(url, key)] does. *)
Inductive Created (C : Type) : Type :=
| ClientReady (c : C)
| ClientFailed (original_error : string).
Arguments ClientReady {C} c.
Arguments ClientFailed {C} original_error.

(** The lifespan yields a context or raises [ConfigurationError]. *)
Inductive Entered (C : Type) : Type :=
| Yields (ctx : SupabaseContext C)
| ConfigurationError (message : string) (details : Details).
Arguments Yields {C} ctx.
Arguments ConfigurationError {C} message details.

(** [not value] for what [os.getenv] returned. *)
Definition env_missing (value : option string) : bool :=
  match value with
  | None => true
  | Some s => negb (truthy (VStr s))
  end.

Definition supabase_lifespan_enter {C : Type}
           (getenv : string -> option string)
           (create_client : string -> string -> Created C) : Entered C :=
  let supabase_url := getenv ENV_SUPABASE_URL in
  let supabase_key := getenv ENV_SUPABASE_SERVICE_KEY in
  if env_missing supabase_url || env_missing supabase_key
  then ConfigurationError MISSING_ENV_VARS []
  else
    match supabase_url, supabase_key with
    | Some url, Some key =>
        match create_client url key with
        | ClientReady supabase_client =>
            Yields {| client := supabase_client;
                      db_ops := {| ops_client := supabase_client |} |}
        | ClientFailed original =>
            ConfigurationError
              ("Failed to initialize Supabase client: " ++ original) []
        end
    | _, _ => ConfigurationError MISSING_ENV_VARS []
    end.

(** An environment for exercising the model. *)
Definition example_env (name : string) : option string :=
  if String.eqb name "SUPABASE_URL" then Some "https://example.supabase.co"
  else if String.eqb name "SUPABASE_SERVICE_KEY" then Some "mock-service-key"
  else None.

(** A client factory that records the arguments it was called with. *)
Definition recording_client (url key : string) : Created (string * string) :=
  ClientReady (url, key).

Section Client.

(** The state of the hosted store and the client's [execute]. *)
Variable Store : Type.
Variable execute : Query -> Store -> ExecOutcome * Store.

(** The world an operation runs in: the store, and the trace of everything
    the layer has asked of the client so far, oldest first. *)
Record World : Type := mkWorld {
  w_store : Store;
  w_trace : list Event
}.

(** Computations that talk to the client and may raise. *)
Definition M (A : Type) : Type := World -> Result A * World.

Definition ret {A} (a : A) : M A := fun w => (Ok a, w).

Definition bind {A B} (m : M A) (k : A -> M B) : M B :=
  fun w =>
    match m w with
    | (Ok a, w') => k a w'
    | (Raise e, w') => (Raise e, w')
    end.

Definition raise {A} (e : PyExn) : M A := fun w => (Raise e, w).

(** A pure check, run for its exception. *)
Definition lift {A} (r : Result A) : M A := fun w => (r, w).

(** [try: body except Exception as e: handler(e)] *)
Definition try_except {A} (body : M A) (handler : PyExn -> M A) : M A :=
  fun w =>
    match body w with
    | (Ok a, w') => (Ok a, w')
    | (Raise e, w') => handler e w'
    end.

Local Notation "x <- m ;; k" := (bind m (fun x => k))
  (at level 61, m at next level, right associativity).
Local Notation "m ;; k" := (bind m (fun _ => k))
  (at level 61, right associativity).

Definition record (e : Event) : M unit :=
  fun w =>
    (Ok tt, {| w_store := w_store w; w_trace := (w_trace w ++ [e])%list |}).

(** [client.table(name)] starts a chain. *)
Definition client_table (name : PyValue) : M Query :=
  record (Built (CTable name)) ;; ret [CTable name].

(** A builder method called on [q] returns the extended chain. *)
Definition chain (q : Query) (c : Call) : M Query :=
  record (Built c) ;; ret (q ++ [c])%list.

(** [query.execute()], with the exception still the client's own. *)
Definition query_execute (q : Query) : M ExecOutcome :=
  fun w =>
    let (o, s') := execute q (w_store w) in
    (Ok o, {| w_store := s'; w_trace := (w_trace w ++ [Executed q o])%list |}).

(** ** utils.py: query helpers *)

(** The [for column, value in filters.items()] loop. *)
Fixpoint apply_items (query : Query) (items : list (string * PyValue))
  : M Query :=
  match items with
  | [] => ret query
  | (column, value) :: rest =>
      query' <- chain query (CEq column value) ;;
      apply_items query' rest
  end.

Definition apply_filters_to_query (query : Query) (filters : PyValue)
  : M Query :=
  if truthy filters then
    match filters with
    | VDict items => apply_items query items
    | _ => raise (AttributeError "object has no attribute 'items'")
    end
  else ret query.

(** The message and attributes of the error [safe_execute_query] raises. *)
Definition execution_failure (operation table_name original : string)
  : PyExn :=
  QueryExecutionError
    ("Failed to execute " ++ operation ++ " on table '" ++ table_name
       ++ "': " ++ original)
    table_name operation
    [("original_error", original)].

Definition safe_execute_query (query : Query) (operation table_name : string)
  : M (option TableData) :=
  o <- query_execute query ;;
  match o with
  | Returned response_data => ret response_data
  | Raised original => raise (execution_failure operation table_name original)
  end.

(** ** database.py *)

(** The characters of a table name that [validate_table_name] has accepted;
    the operations interpolate it into messages only after that check, when
    the value is known to be a [str]. *)
Definition name_text (table_name : PyValue) : string :=
  match table_name with VStr s => s | _ => EmptyString end.

(** [except Exception as e: logger.error(...); raise] *)
Definition log_and_reraise {A} (body : M A) : M A :=
  try_except body (fun e => raise e).

(** [len(response.data)] inside the log message of [read_table_rows]. *)
Definition data_len (response_data : option TableData) : M nat :=
  match response_data with
  | Some rows => ret (length rows)
  | None => raise (TypeError "object of type 'NoneType' has no len()")
  end.

Definition read_table_rows (table_name : PyValue) (columns : string)
           (filters : PyValue) (limit : PyValue) (order_by : option string)
           (ascending : bool) : M (option TableData) :=
  lift (validate_table_name table_name) ;;
  lift (validate_limit limit) ;;
  lift (validate_filters filters) ;;
  log_and_reraise (
    base <- client_table table_name ;;
    query <- chain base (CSelect columns) ;;
    query <- apply_filters_to_query query filters ;;
    query <- match order_by with
             | Some column =>
                 if truthy (VStr column)
                 then chain query (COrder column ascending)
                 else ret query
             | None => ret query
             end ;;
    query <- (if truthy limit then chain query (CLimit limit) else ret query) ;;
    response_data <- safe_execute_query query "read" (name_text table_name) ;;
    _ <- data_len response_data ;;
    ret response_data).

(** [response.data is not None and len(response.data) > 0] *)
Definition has_rows (response_data : option TableData) : bool :=
  match response_data with
  | Some rows => (0 <? length rows)%nat
  | None => false
  end.

(** [len(response.data or [])] *)
Definition rows_or_empty (response_data : option TableData) : nat :=
  match response_data with
  | Some rows => if negb (length rows =? 0)%nat then length rows else 0
  | None => 0
  end.

(** The common tail of the three mutating operations, which differs only
    in the verb of the message. *)
Definition wrap (response_data : option TableData) (done none : string)
  : OperationResponse :=
  let success := has_rows response_data in
  let status := if success then SUCCESS else ERROR in
  create_response response_data status
    (Some (if success
           then done ++ " " ++ str_of_nat (rows_or_empty response_data)
                ++ " record(s)"
           else none)).

Definition create_table_records (table_name : PyValue) (records : PyValue)
  : M OperationResponse :=
  lift (validate_table_name table_name) ;;
  (if negb (truthy records)
   then lift (validation_error "Records cannot be empty")
   else ret tt) ;;
  (if is_dict records then ret 1%nat
   else match py_len records with
        | Some n => ret n
        | None => raise (TypeError "object has no len()")
        end) ;;
  log_and_reraise (
    base <- client_table table_name ;;
    query <- chain base (CInsert records) ;;
    response_data <- safe_execute_query query "create" (name_text table_name) ;;
    ret (wrap response_data "Created" "No records were created")).

Definition update_table_records (table_name : PyValue) (updates : PyValue)
           (filters : PyValue) : M OperationResponse :=
  lift (validate_table_name table_name) ;;
  lift (validate_updates updates) ;;
  lift (validate_filters filters) ;;
  log_and_reraise (
    base <- client_table table_name ;;
    query <- chain base (CUpdate updates) ;;
    query <- apply_filters_to_query query filters ;;
    response_data <- safe_execute_query query "update" (name_text table_name) ;;
    ret (wrap response_data "Updated" "No records were updated")).

Definition delete_table_records (table_name : PyValue) (filters : PyValue)
  : M OperationResponse :=
  lift (validate_table_name table_name) ;;
  lift (validate_filters filters) ;;
  log_and_reraise (
    base <- client_table table_name ;;
    query <- chain base CDelete ;;
    query <- apply_filters_to_query query filters ;;
    response_data <- safe_execute_query query "delete" (name_text table_name) ;;
    ret (wrap response_data "Deleted" "No records were deleted")).

(** *** The four entry points as one interface *)

(** An invocation of one of the four operations with its arguments. *)
Inductive Operation : Type :=
| OpRead (table_name : PyValue) (columns : string) (filters limit : PyValue)
         (order_by : option string) (ascending : bool)
| OpCreate (table_name records : PyValue)
| OpUpdate (table_name updates filters : PyValue)
| OpDelete (table_name filters : PyValue).

(** What an operation returns: [read] the rows themselves, the other three
    the envelope. *)
Inductive Returns : Type :=
| Rows (rows : option TableData)
| Envelope (response : OperationResponse).

Definition run (op : Operation) : M Returns :=
  match op with
  | OpRead t columns filters limit order_by ascending =>
      rows <- read_table_rows t columns filters limit order_by ascending ;;
      ret (Rows rows)
  | OpCreate t records =>
      r <- create_table_records t records ;; ret (Envelope r)
  | OpUpdate t updates filters =>
      r <- update_table_records t updates filters ;; ret (Envelope r)
  | OpDelete t filters =>
      r <- delete_table_records t filters ;; ret (Envelope r)
  end.

(** A world in which nothing has been asked of the client yet. *)
Definition fresh (s : Store) : World := {| w_store := s; w_trace := [] |}.

(** The operation name passed to [safe_execute_query]. *)
Definition op_name (op : Operation) : string :=
  match op with
  | OpRead _ _ _ _ _ _ => "read"
  | OpCreate _ _ => "create"
  | OpUpdate _ _ _ => "update"
  | OpDelete _ _ => "delete"
  end.

Definition op_table (op : Operation) : PyValue :=
  match op with
  | OpRead t _ _ _ _ _ => t
  | OpCreate t _ => t
  | OpUpdate t _ _ => t
  | OpDelete t _ => t
  end.

(** ** The protocol skeleton

    The four operations share one shape: check the arguments, build the
    query, execute it once, wrap what came back.  The definitions below
    name the three pure parts; [run_skeleton] proves that [run] is their
    composition. *)

Definition and_then (r : Result unit) (k : Result unit) : Result unit :=
  match r with
  | Ok _ => k
  | Raise e => Raise e
  end.

(** Everything an operation does before it first touches the client. *)
Definition checks (op : Operation) : Result unit :=
  match op with
  | OpRead t _ filters limit _ _ =>
      and_then (validate_table_name t)
        (and_then (validate_limit limit) (validate_filters filters))
  | OpCreate t records =>
      and_then (validate_table_name t)
        (and_then (if negb (truthy records)
                   then validation_error "Records cannot be empty"
                   else Ok tt)
                  (if is_dict records then Ok tt
                   else match py_len records with
                        | Some _ => Ok tt
                        | None => Raise (TypeError "object has no len()")
                        end))
  | OpUpdate t updates filters =>
      and_then (validate_table_name t)
        (and_then (validate_updates updates) (validate_filters filters))
  | OpDelete t filters =>
      and_then (validate_table_name t) (validate_filters filters)
  end.

(** The entries of a filter mapping in iteration order; nothing for
    [None]. *)
Definition filter_items (filters : PyValue) : list (string * PyValue) :=
  match filters with
  | VDict items => items
  | _ => []
  end.

Definition eq_call (item : string * PyValue) : Call :=
  CEq (fst item) (snd item).

(** The chain of builder calls of an operation whose checks passed. *)
Definition built_query (op : Operation) : Query :=
  match op with
  | OpRead t columns filters limit order_by ascending =>
      [CTable t; CSelect columns]
        ++ map eq_call (filter_items filters)
        ++ match order_by with
           | Some column =>
               if truthy (VStr column) then [COrder column ascending] else []
           | None => []
           end
        ++ (if truthy limit then [CLimit limit] else [])
  | OpCreate t records => [CTable t; CInsert records]
  | OpUpdate t updates filters =>
      [CTable t; CUpdate updates] ++ map eq_call (filter_items filters)
  | OpDelete t filters =>
      [CTable t; CDelete] ++ map eq_call (filter_items filters)
  end%list.

(** What the operation makes of the outcome of its one [execute]. *)
Definition finish (op : Operation) (o : ExecOutcome) : Result Returns :=
  match o with
  | Raised original =>
      Raise (execution_failure (op_name op) (name_text (op_table op)) original)
  | Returned response_data =>
      match op with
      | OpRead _ _ _ _ _ _ =>
          match response_data with
          | Some _ => Ok (Rows response_data)
          | None => Raise (TypeError "object of type 'NoneType' has no len()")
          end
      | OpCreate _ _ =>
          Ok (Envelope (wrap response_data "Created" "No records were created"))
      | OpUpdate _ _ _ =>
          Ok (Envelope (wrap response_data "Updated" "No records were updated"))
      | OpDelete _ _ =>
          Ok (Envelope (wrap response_data "Deleted" "No records were deleted"))
      end
  end.

(** The message of the envelope when no row came back. *)
Definition nothing_done (op : Operation) : string :=
  match op with
  | OpRead _ _ _ _ _ _ => ""
  | OpCreate _ _ => "No records were created"
  | OpUpdate _ _ _ => "No records were updated"
  | OpDelete _ _ => "No records were deleted"
  end.

(** ** server.py: the tools

    Each tool fetches [db_ops] from the context, calls the operation of the
    same name and filters what it raises: [ValidationError] and
    [QueryExecutionError] are logged and re-raised, any other exception is
    replaced by a [QueryExecutionError] built from the table name and the
    name of the operation.  The tools carry the prefix [mcp_] here, the
    names without it being those of [DatabaseOperations]. *)

(** [str(e)] *)
Definition exn_str (e : PyExn) : string :=
  match e with
  | ValidationError m _ => m
  | QueryExecutionError m _ _ _ => m
  | TypeError m => m
  | AttributeError m => m
  end.

(** [QueryExecutionError(f"Unexpected error: {str(e)}", table_name, op)];
    no details are passed, so [details or {}] stores the empty mapping.
    The operations raise a built-in exception only after the table name has
    passed [validate_table_name] ([builtin_error_after_validation]), so the
    [table_name] attribute is the text of a [str]. *)
Definition unexpected_error (table_name : PyValue) (operation : string)
           (e : PyExn) : PyExn :=
  QueryExecutionError ("Unexpected error: " ++ exn_str e)
                      (name_text table_name) operation [].

(** The two [except] clauses of a tool. *)
Definition tool_guard {A} (table_name : PyValue) (operation : string)
           (body : M A) : M A :=
  try_except body
    (fun e =>
       match e with
       | ValidationError _ _ | QueryExecutionError _ _ _ _ => raise e
       | _ => raise (unexpected_error table_name operation e)
       end).

Definition mcp_read_table_rows (table_name : PyValue) (columns : string)
           (filters : PyValue) (limit : PyValue) (order_by : option string)
           (ascending : bool) : M (option TableData) :=
  tool_guard table_name "read"
    (read_table_rows table_name columns filters limit order_by ascending).

Definition mcp_create_table_records (table_name records : PyValue)
  : M OperationResponse :=
  tool_guard table_name "create" (create_table_records table_name records).

Definition mcp_update_table_records (table_name updates filters : PyValue)
  : M OperationResponse :=
  tool_guard table_name "update"
    (update_table_records table_name updates filters).

Definition mcp_delete_table_records (table_name filters : PyValue)
  : M OperationResponse :=
  tool_guard table_name "delete" (delete_table_records table_name filters).

(** The four tools as one interface, like [run]. *)
Definition run_tool (op : Operation) : M Returns :=
  match op with
  | OpRead t columns filters limit order_by ascending =>
      rows <- mcp_read_table_rows t columns filters limit order_by ascending ;;
      ret (Rows rows)
  | OpCreate t records =>
      r <- mcp_create_table_records t records ;; ret (Envelope r)
  | OpUpdate t updates filters =>
      r <- mcp_update_table_records t updates filters ;; ret (Envelope r)
  | OpDelete t filters =>
      r <- mcp_delete_table_records t filters ;; ret (Envelope r)
  end.

(** The result of [read_table_rows] as a result of [run]. *)
Definition as_rows (r : Result (option TableData)) : Result Returns :=
  match r with
  | Ok rows => Ok (Rows rows)
  | Raise e => Raise e
  end.

(** [isinstance(e, (ValidationError, QueryExecutionError))] *)
Definition is_domain_error (e : PyExn) : bool :=
  match e with
  | ValidationError _ _ | QueryExecutionError _ _ _ _ => true
  | _ => false
  end.

(** A store that answers every query with a response whose [data] is
    [None]. *)
Definition null_data_store (q : Query) (n : nat) : ExecOutcome * nat :=
  (Returned None, S n).

(** A store that answers with two rows. *)
Definition two_row_store (q : Query) (n : nat) : ExecOutcome * nat :=
  (Returned (Some [[("id", VInt 1)]; [("id", VInt 2)]]), S n).

(** Invocations used to exercise the model. *)
Definition sample_filters : PyValue := VDict [("active", VBool true)].
Definition sample_updates : PyValue := VDict [("name", VStr "X")].
Definition sample_records : PyValue :=
  VList [VDict [("name", VStr "John")]; VDict [("name", VStr "Jane")]].
Definition sample_read : Operation :=
  OpRead (VStr "users") "id,name" sample_filters (VInt 10)
         (Some "created_at") false.

(** ** Vocabulary of the statements *)

(** The fixed messages of the validation errors. *)
Definition table_name_message : string := "Table name cannot be empty".
Definition limit_message : string := "Limit must be a positive integer".
Definition empty_filters_message : string :=
  "Filters dictionary cannot be empty".
Definition empty_records_message : string := "Records cannot be empty".

(** The filters argument of an operation; [create] has none. *)
Definition op_filters (op : Operation) : PyValue :=
  match op with
  | OpRead _ _ filters _ _ _ => filters
  | OpCreate _ _ => VNone
  | OpUpdate _ _ filters => filters
  | OpDelete _ filters => filters
  end.

(** The result of a mutating operation as a result of [run]. *)
Definition enveloped (r : Result OperationResponse) : Result Returns :=
  match r with
  | Ok a => Ok (Envelope a)
  | Raise e => Raise e
  end.

(** An envelope says "success" exactly when it holds at least one row. *)
Definition success_iff_rows (resp : OperationResponse) : Prop :=
  status resp = "success"
  <-> exists rows, data resp = Some rows /\ rows <> [].

(** The envelope of a mutating operation that no row came back from. *)
Definition no_rows_envelope (none : string) : OperationResponse :=
  {| data := Some []; count := 0; status := "error"; message := Some none |}.

(** * Properties *)

(** ** Whitespace trimming *)

Lemma rstrip_empty (s : string) :
  rstrip s = EmptyString <-> all_space s = true.
Proof.
  induction s as [|c s IH]; simpl.
  - split; reflexivity.
  - destruct (rstrip s) eqn:R.
    + destruct (is_space c); simpl.
      * now rewrite <- IH.
      * split; discriminate.
    + split; [discriminate|].
      intros H. apply andb_true_iff in H as [_ Hs].
      apply IH in Hs. discriminate.
Qed.

Lemma all_space_lstrip (s : string) :
  all_space (lstrip s) = all_space s.
Proof.
  induction s as [|c s IH]; simpl; [reflexivity|].
  destruct (is_space c) eqn:Hc; simpl.
  - exact IH.
  - now rewrite Hc.
Qed.

Lemma strip_empty (s : string) :
  strip s = EmptyString <-> all_space s = true.
Proof.
  unfold strip. rewrite rstrip_empty. now rewrite all_space_lstrip.
Qed.

Lemma length_zero_empty (s : string) :
  (String.length s =? 0)%nat = true <-> s = EmptyString.
Proof.
  destruct s; simpl; split; congruence.
Qed.

(** ** The validators *)

(** C5. [validate_table_name] returns silently on every string that is
    non-empty after trimming whitespace, and raises [ValidationError] with
    the message "Table name cannot be empty" on the empty string, on a
    string of whitespace only, on [None] and on every value that is not a
    string. *)
Theorem validate_table_name_spec :
  (forall s, strip s <> EmptyString ->
             validate_table_name (VStr s) = Ok tt)
  /\ (forall v,
        v = VStr EmptyString
        \/ (exists s, v = VStr s /\ all_space s = true)
        \/ v = VNone
        \/ is_str v = false ->
        validate_table_name v
        = Raise (ValidationError table_name_message [])).
Proof.
  split.
  - intros s Hs. unfold validate_table_name.
    assert (Hne : s <> EmptyString).
    { intros ->. apply Hs. reflexivity. }
    simpl.
    destruct (String.length s =? 0)%nat eqn:E1.
    + apply length_zero_empty in E1. contradiction.
    + destruct (String.length (strip s) =? 0)%nat eqn:E2.
      * apply length_zero_empty in E2. contradiction.
      * reflexivity.
  - intros v [-> | [[s [-> Hs]] | [-> | Hv]]].
    + reflexivity.
    + unfold validate_table_name. simpl.
      apply strip_empty in Hs. rewrite Hs. simpl.
      rewrite orb_true_r. reflexivity.
    + reflexivity.
    + destruct v; try reflexivity. discriminate.
Qed.

Lemma validate_table_name_spec_witness :
  validate_table_name (VStr "user_profiles") = Ok tt
  /\ validate_table_name (VStr "   ")
     = Raise (ValidationError table_name_message [])
  /\ validate_table_name (VInt 7)
     = Raise (ValidationError table_name_message []).
Proof.
  split; [|split].
  - apply (proj1 validate_table_name_spec "user_profiles").
    vm_compute. discriminate.
  - apply (proj2 validate_table_name_spec (VStr "   ")).
    right; left. exists "   ". split; reflexivity.
  - apply (proj2 validate_table_name_spec (VInt 7)).
    right; right; right. reflexivity.
Defined.

(** A table name the validator accepts is a string. *)
Lemma validate_table_name_ok (v : PyValue) :
  validate_table_name v = Ok tt -> exists s, v = VStr s.
Proof.
  destruct v; simpl; try discriminate. intros _. now exists s.
Qed.

(** The validators raise nothing but [ValidationError] with no details. *)
Lemma validate_table_name_raises (v : PyValue) (e : PyExn) :
  validate_table_name v = Raise e -> exists msg, e = ValidationError msg [].
Proof.
  unfold validate_table_name, validation_error.
  destruct v; try (intros [= <-]; eauto).
  destruct (_ || _); [intros [= <-]; eauto | discriminate].
Qed.

Lemma validate_limit_raises (v : PyValue) (e : PyExn) :
  validate_limit v = Raise e -> exists msg, e = ValidationError msg [].
Proof.
  unfold validate_limit, validation_error.
  destruct v; try discriminate;
    (destruct (_ || _); [intros [= <-]; eauto | discriminate]).
Qed.

Lemma validate_filters_raises (v : PyValue) (e : PyExn) :
  validate_filters v = Raise e -> exists msg, e = ValidationError msg [].
Proof.
  unfold validate_filters, validation_error.
  destruct v; try discriminate; simpl; try (intros [= <-]; eauto).
  destruct (negb _); [intros [= <-]; eauto | discriminate].
Qed.

Lemma validate_updates_raises (v : PyValue) (e : PyExn) :
  validate_updates v = Raise e -> exists msg, e = ValidationError msg [].
Proof.
  unfold validate_updates, validation_error.
  destruct v; simpl; try (intros [= <-]; eauto).
  destruct (negb _); [intros [= <-]; eauto | discriminate].
Qed.

(** Filters the validator accepts are [None] or a non-empty mapping. *)
Lemma validate_filters_ok (v : PyValue) :
  validate_filters v = Ok tt ->
  v = VNone \/ exists item items, v = VDict (item :: items).
Proof.
  destruct v; simpl; try discriminate; auto.
  destruct items as [|item items]; simpl; [discriminate|].
  intros _. right. eauto.
Qed.

(** C6. [validate_limit(None)] passes; [validate_limit(n)] passes for every
    integer [n > 0]; on every other input, one that is an integer at most 0
    or is not an integer at all, it raises [ValidationError] with the
    message "Limit must be a positive integer". *)
Theorem validate_limit_spec :
  validate_limit VNone = Ok tt
  /\ (forall v, is_int v = true -> (0 < int_value v)%Z ->
                validate_limit v = Ok tt)
  /\ (forall v, v <> VNone ->
                is_int v = false \/ (int_value v <= 0)%Z ->
                validate_limit v = Raise (ValidationError limit_message [])).
Proof.
  split; [reflexivity|split].
  - intros v Hi Hp. unfold validate_limit.
    destruct v as [|b|n| | | |]; try discriminate; simpl in *.
    + destruct b; [reflexivity | lia].
    + destruct (Z.leb_spec n 0); [lia | reflexivity].
  - intros v Hn [Hi | Hz]; unfold validate_limit.
    + destruct v; try discriminate; try reflexivity. contradiction.
    + destruct v; try reflexivity; try contradiction.
      * apply Z.leb_le in Hz. rewrite Hz. now rewrite orb_true_r.
      * apply Z.leb_le in Hz. rewrite Hz. now rewrite orb_true_r.
Qed.

Lemma validate_limit_spec_witness :
  validate_limit (VInt 1000) = Ok tt
  /\ validate_limit (VInt (-1)) = Raise (ValidationError limit_message [])
  /\ validate_limit (VStr "10") = Raise (ValidationError limit_message []).
Proof.
  destruct validate_limit_spec as [_ [Hpos Hbad]].
  split; [|split].
  - apply (Hpos (VInt 1000)); [reflexivity | simpl; lia].
  - apply (Hbad (VInt (-1))); [discriminate | right; simpl; lia].
  - apply (Hbad (VStr "10")); [discriminate | left; reflexivity].
Defined.

(** ** The envelope *)

Lemma status_value_inj (a b : ResponseStatus) :
  status_value a = status_value b -> a = b.
Proof.
  destruct a, b; simpl; intros H; try reflexivity; discriminate.
Qed.

(** C7. The envelope [create_response] builds has [count] equal to
    [len(data)] when [data] is neither [None] nor empty and 0 otherwise,
    has the string value of the enum member as [status], and holds [data]
    and [message] unchanged; the three arguments can be read back from the
    envelope. *)
Theorem create_response_spec :
  forall (d : option TableData) (st : ResponseStatus) (msg : option string),
    data (create_response d st msg) = d
    /\ message (create_response d st msg) = msg
    /\ status (create_response d st msg) = status_value st
    /\ (forall rows, d = Some rows -> rows <> [] ->
                     count (create_response d st msg) = length rows)
    /\ (d = None \/ d = Some [] -> count (create_response d st msg) = 0)
    /\ (forall d' st' msg',
          create_response d st msg = create_response d' st' msg' ->
          d = d' /\ st = st' /\ msg = msg').
Proof.
  intros d st msg. repeat split; try reflexivity.
  - intros rows -> Hne. simpl. destruct rows; [contradiction | reflexivity].
  - intros [-> | ->]; reflexivity.
  - injection H; auto.
  - injection H. intros _ Hs _ _. now apply status_value_inj.
  - injection H; auto.
Qed.

Lemma create_response_spec_witness :
  count (create_response (Some [[("id", VInt 1)]; [("id", VInt 2)]])
                         SUCCESS (Some "Success message")) = 2
  /\ count (create_response (Some []) SUCCESS None) = 0.
Proof.
  split.
  - apply (proj1 (proj2 (proj2 (proj2
             (create_response_spec (Some [[("id", VInt 1)]; [("id", VInt 2)]])
                                   SUCCESS (Some "Success message")))))
             [[("id", VInt 1)]; [("id", VInt 2)]]);
      [reflexivity | discriminate].
  - apply (proj1 (proj2 (proj2 (proj2 (proj2
             (create_response_spec (Some []) SUCCESS None)))))).
    right. reflexivity.
Defined.

(** The status of a wrapped result says whether rows came back. *)
Lemma wrap_status (d : option TableData) (done none : string) :
  status (wrap d done none) = "success"
  <-> exists rows, d = Some rows /\ rows <> [].
Proof.
  unfold wrap. destruct d as [[|row rows]|]; simpl.
  - split; [discriminate|]. intros [r [[= <-] H]]. contradiction.
  - split; [|reflexivity]. intros _. eexists; split; [reflexivity|discriminate].
  - split; [discriminate|]. intros [r [H _]]. discriminate.
Qed.

Lemma wrap_data (d : option TableData) (done none : string) :
  data (wrap d done none) = d.
Proof. reflexivity. Qed.

(** ** Query construction *)

Ltac run_step :=
  unfold bind, lift, ret, raise, chain, client_table, record,
    log_and_reraise, try_except; simpl.

Lemma apply_items_run (q : Query) (items : list (string * PyValue))
      (w : World) :
  apply_items q items w
  = (Ok (q ++ map eq_call items)%list,
     {| w_store := w_store w;
        w_trace := (w_trace w ++ map Built (map eq_call items))%list |}).
Proof.
  revert q w. induction items as [|[c v] rest IH]; intros q w; simpl.
  - destruct w. unfold ret. simpl. now rewrite !app_nil_r.
  - run_step. rewrite IH. simpl. unfold eq_call at 2 4. simpl.
    now rewrite <- !app_assoc.
Qed.

(** On filters that passed [validate_filters], [apply_filters_to_query]
    extends the chain by one [eq] per entry. *)
Lemma apply_filters_run (q : Query) (filters : PyValue) (w : World) :
  validate_filters filters = Ok tt ->
  apply_filters_to_query q filters w
  = (Ok (q ++ map eq_call (filter_items filters))%list,
     {| w_store := w_store w;
        w_trace := (w_trace w
                      ++ map Built (map eq_call (filter_items filters)))%list |}).
Proof.
  intros H. apply validate_filters_ok in H as [-> | [item [items ->]]].
  - unfold apply_filters_to_query, ret. simpl. destruct w; simpl.
    now rewrite !app_nil_r.
  - unfold apply_filters_to_query. simpl truthy. cbv iota.
    apply apply_items_run.
Qed.

(** ** The operations follow the protocol skeleton *)

Ltac trace_norm :=
  repeat first [rewrite app_nil_r | rewrite map_app | rewrite <- app_assoc
               | progress simpl].

Ltac check_step v :=
  let E := fresh "E" in
  destruct v as [[]|?] eqn:E; simpl; [|reflexivity].

(** Every operation runs its checks first and stops there, the world
    untouched, if one raises; otherwise it builds its query, executes it
    exactly once, and returns what [finish] makes of the outcome. *)
Lemma run_skeleton (op : Operation) (w : World) :
  run op w
  = match checks op with
    | Raise e => (Raise e, w)
    | Ok _ =>
        let q := built_query op in
        let (o, s') := execute q (w_store w) in
        (finish op o,
         {| w_store := s';
            w_trace := (w_trace w ++ map Built q ++ [Executed q o])%list |})
    end.
Proof.
  destruct op as [t columns filters limit order_by ascending
                 | t records | t updates filters | t filters];
    unfold run, checks.
  - unfold read_table_rows. unfold bind at 1 2 3 4, lift.
    check_step (validate_table_name t).
    check_step (validate_limit limit).
    check_step (validate_filters filters).
    run_step. rewrite apply_filters_run by assumption. simpl.
    destruct order_by as [[|c column]|];
      simpl; destruct (truthy limit); simpl;
      unfold safe_execute_query, query_execute, bind; trace_norm;
      match goal with |- context [execute ?q ?s] =>
        destruct (execute q s) as [[m|[rows|]] s'] end;
      trace_norm; reflexivity.
  - unfold create_table_records. unfold bind at 1 2 3 4, lift.
    check_step (validate_table_name t).
    destruct (truthy records); simpl; [|reflexivity].
    destruct (is_dict records); [|destruct (py_len records)];
      run_step; try reflexivity;
      unfold safe_execute_query, query_execute, bind; simpl;
      match goal with |- context [execute ?q ?s] =>
        destruct (execute q s) as [[m|rows] s'] end;
      trace_norm; reflexivity.
  - unfold update_table_records. unfold bind at 1 2 3 4, lift.
    check_step (validate_table_name t).
    check_step (validate_updates updates).
    check_step (validate_filters filters).
    run_step. rewrite apply_filters_run by assumption. simpl.
    unfold safe_execute_query, query_execute, bind; simpl.
    match goal with |- context [execute ?q ?s] =>
      destruct (execute q s) as [[m|rows] s'] end;
      trace_norm; reflexivity.
  - unfold delete_table_records. unfold bind at 1 2 3, lift.
    check_step (validate_table_name t).
    check_step (validate_filters filters).
    run_step. rewrite apply_filters_run by assumption. simpl.
    unfold safe_execute_query, query_execute, bind; simpl.
    match goal with |- context [execute ?q ?s] =>
      destruct (execute q s) as [[m|rows] s'] end;
      trace_norm; reflexivity.
Qed.

(** *** Consequences for the trace *)

Lemma executions_app (a b : list Event) :
  executions (a ++ b) = executions a + executions b.
Proof.
  unfold executions. now rewrite filter_app, length_app.
Qed.

Lemma executions_built (q : Query) : executions (map Built q) = 0.
Proof.
  induction q as [|c q IH]; [reflexivity | exact IH].
Qed.

Lemma executed_not_built (q0 : Query) (o0 : ExecOutcome) (q : Query) :
  ~ In (Executed q0 o0) (map Built q).
Proof.
  intros H. apply in_map_iff in H as [c [Hc _]]. discriminate.
Qed.

(** From a fresh world, an operation leaves either an empty trace (a check
    raised) or the builder calls of its query followed by one [execute]. *)
Lemma run_fresh_trace (op : Operation) (s : Store) (r : Result Returns)
      (w' : World) (q : Query) (o : ExecOutcome) :
  run op (fresh s) = (r, w') ->
  In (Executed q o) (w_trace w') ->
  checks op = Ok tt
  /\ q = built_query op
  /\ r = finish op o
  /\ w_trace w' = (map Built q ++ [Executed q o])%list.
Proof.
  rewrite run_skeleton. destruct (checks op) as [[]|e].
  - simpl. destruct (execute (built_query op) s) as [o' s'].
    intros [= <- <-]. simpl. intros H.
    apply in_app_or in H as [H | [H | []]].
    + now apply executed_not_built in H.
    + injection H as <- <-. repeat split; reflexivity.
  - intros [= <- <-]. intros [].
Qed.

Lemma checks_table (op : Operation) :
  checks op = Ok tt -> exists t, op_table op = VStr t.
Proof.
  intros H. apply validate_table_name_ok.
  destruct op; simpl in *;
    destruct (validate_table_name table_name) as [[]|]; try reflexivity;
    discriminate.
Qed.

(** What raises before the client is touched is a [ValidationError], or
    the [TypeError] of [len] on records without a length. *)
Lemma finish_not_validation (op : Operation) (o : ExecOutcome)
      (msg : string) (d : Details) :
  finish op o <> Raise (ValidationError msg d).
Proof.
  destruct o as [m|[rows|]]; destruct op; discriminate.
Qed.

(** ** Validation comes first *)

(** C4. In every operation the validators run before anything is asked of
    the client: when the operation raises [ValidationError], no builder
    call was made and no query was executed, so the trace and the state of
    the store are what they were. *)
Theorem validation_before_client (op : Operation) (w w' : World)
        (msg : string) (d : Details) :
  run op w = (Raise (ValidationError msg d), w') -> w' = w.
Proof.
  rewrite run_skeleton. destruct (checks op) as [[]|e].
  - simpl. destruct (execute (built_query op) (w_store w)) as [o s'].
    intros [= H _]. now apply finish_not_validation in H.
  - now intros [= _ <-].
Qed.

(** ** Failures of the client *)

(** C3. Whatever the operation, if the client's [execute] raises, with
    message [m], the operation raises [QueryExecutionError]; its message is
    "Failed to execute <operation> on table '<table_name>'" followed by
    ": " and [m], and it carries the table name, the operation name and
    [m] under "original_error" in its details.  Nothing is returned in its
    place, and [execute] was called once only. *)
Theorem execute_failure_surfaces (op : Operation) (s : Store)
        (r : Result Returns) (w' : World) (q : Query) (m : string) :
  run op (fresh s) = (r, w') ->
  In (Executed q (Raised m)) (w_trace w') ->
  exists t,
    op_table op = VStr t
    /\ r = Raise (QueryExecutionError
                    ("Failed to execute " ++ op_name op ++ " on table '" ++ t
                       ++ "'" ++ ": " ++ m)
                    t (op_name op) [("original_error", m)])
    /\ executions (w_trace w') = 1.
Proof.
  intros Hrun Hin.
  destruct (@run_fresh_trace _ _ _ _ _ _ Hrun Hin) as [Hc [-> [-> Htr]]].
  destruct (@checks_table _ Hc) as [t Ht]. exists t.
  split; [exact Ht|split].
  - simpl. now rewrite Ht.
  - rewrite Htr, executions_app, executions_built. reflexivity.
Qed.

(** ** The envelope of the mutating operations *)

Lemma finish_envelope_status (op : Operation) (o : ExecOutcome)
      (resp : OperationResponse) :
  finish op o = Ok (Envelope resp) ->
  (status resp = "success"
   <-> exists rows, data resp = Some rows /\ rows <> []).
Proof.
  destruct o as [m|d]; [discriminate|].
  destruct op; simpl; try (destruct d; discriminate);
    intros [= <-]; rewrite wrap_data; apply wrap_status.
Qed.

Lemma run_envelope_status (op : Operation) (w w' : World)
      (resp : OperationResponse) :
  run op w = (Ok (Envelope resp), w') ->
  (status resp = "success"
   <-> exists rows, data resp = Some rows /\ rows <> []).
Proof.
  rewrite run_skeleton. destruct (checks op) as [[]|e]; [|discriminate].
  simpl. destruct (execute (built_query op) (w_store w)) as [o s'].
  intros [= H _]. now apply finish_envelope_status in H.
Qed.

Lemma run_no_rows (op : Operation) (s : Store) (r : Result Returns)
      (w' : World) (q : Query) :
  run op (fresh s) = (r, w') ->
  In (Executed q (Returned (Some []))) (w_trace w') ->
  match op with
  | OpRead _ _ _ _ _ _ => r = Ok (Rows (Some []))
  | _ => r = Ok (Envelope {| data := Some []; count := 0; status := "error";
                             message := Some (nothing_done op) |})
  end.
Proof.
  intros Hrun Hin.
  destruct (@run_fresh_trace _ _ _ _ _ _ Hrun Hin) as [_ [_ [-> _]]].
  destruct op; reflexivity.
Qed.

Lemma create_as_run t records w r w' :
  create_table_records t records w = (r, w') ->
  run (OpCreate t records) w = (enveloped r, w').
Proof.
  intros H. unfold run, bind, ret. rewrite H. now destruct r.
Qed.

Lemma update_as_run t updates filters w r w' :
  update_table_records t updates filters w = (r, w') ->
  run (OpUpdate t updates filters) w = (enveloped r, w').
Proof.
  intros H. unfold run, bind, ret. rewrite H. now destruct r.
Qed.

Lemma delete_as_run t filters w r w' :
  delete_table_records t filters w = (r, w') ->
  run (OpDelete t filters) w = (enveloped r, w').
Proof.
  intros H. unfold run, bind, ret. rewrite H. now destruct r.
Qed.

Ltac as_run H :=
  first [apply create_as_run in H | apply update_as_run in H
        | apply delete_as_run in H].

(** C2. Every envelope returned by [create_table_records],
    [update_table_records] or [delete_table_records] has status "success"
    if and only if its [data] is neither [None] nor empty; and when the
    store answers the query with zero rows, raising nothing, the operation
    raises nothing either and returns the envelope with [data = []],
    [count = 0] and status "error". *)
Theorem envelope_status_spec :
  (forall t records w resp w',
      create_table_records t records w = (Ok resp, w') ->
      success_iff_rows resp)
  /\ (forall t updates filters w resp w',
        update_table_records t updates filters w = (Ok resp, w') ->
        success_iff_rows resp)
  /\ (forall t filters w resp w',
        delete_table_records t filters w = (Ok resp, w') ->
        success_iff_rows resp)
  /\ (forall t records s r w' q,
        create_table_records t records (fresh s) = (r, w') ->
        In (Executed q (Returned (Some []))) (w_trace w') ->
        r = Ok (no_rows_envelope "No records were created"))
  /\ (forall t updates filters s r w' q,
        update_table_records t updates filters (fresh s) = (r, w') ->
        In (Executed q (Returned (Some []))) (w_trace w') ->
        r = Ok (no_rows_envelope "No records were updated"))
  /\ (forall t filters s r w' q,
        delete_table_records t filters (fresh s) = (r, w') ->
        In (Executed q (Returned (Some []))) (w_trace w') ->
        r = Ok (no_rows_envelope "No records were deleted")).
Proof.
  split; [|split; [|split; [|split; [|split]]]].
  1-3: intros * H; as_run H; unfold enveloped in H;
    exact (@run_envelope_status _ _ _ _ H).
  all: intros * H I; as_run H;
    pose proof (@run_no_rows _ _ _ _ _ H I) as E; simpl in E;
    destruct r; [injection E as ->; reflexivity | discriminate].
Qed.

(** ** Filters *)

Lemma eq_constraints_app (a b : Query) :
  eq_constraints (a ++ b)%list
  = (eq_constraints a ++ eq_constraints b)%list.
Proof.
  induction a as [|c a IH]; [reflexivity|].
  destruct c; simpl; now rewrite IH.
Qed.

Lemma eq_constraints_eq_calls (items : list (string * PyValue)) :
  eq_constraints (map eq_call items) = items.
Proof.
  induction items as [|[c v] items IH]; [reflexivity|].
  simpl. now rewrite IH.
Qed.

Lemma built_query_constraints (op : Operation) :
  eq_constraints (built_query op) = filter_items (op_filters op).
Proof.
  destruct op as [t columns filters limit [[|ch column]|] ascending
                 | t records | t updates filters | t filters];
    simpl; rewrite ?eq_constraints_app, ?eq_constraints_eq_calls;
    try reflexivity;
    destruct (truthy limit); simpl; now rewrite app_nil_r.
Qed.

(** C8. On a non-empty filter mapping, query construction calls [eq] once
    per entry, in the iteration order of the mapping, each on the query
    the previous call returned, so the constraints are conjoined on one
    query.  Hence the query an operation executes carries exactly the
    entries of its filters as equality constraints, in order, and every
    one was applied before the [execute]. *)
Theorem filters_become_constraints :
  (forall (q : Query) item items (w : World),
      apply_filters_to_query q (VDict (item :: items)) w
      = (Ok (q ++ map eq_call (item :: items))%list,
         {| w_store := w_store w;
            w_trace := (w_trace w
                          ++ map Built (map eq_call (item :: items)))%list |})
      /\ eq_constraints (q ++ map eq_call (item :: items))%list
         = (eq_constraints q ++ item :: items)%list)
  /\ (forall op s r w' q o,
        run op (fresh s) = (r, w') ->
        In (Executed q o) (w_trace w') ->
        w_trace w' = (map Built q ++ [Executed q o])%list
        /\ eq_constraints q = filter_items (op_filters op)).
Proof.
  split.
  - intros q item items w. split.
    + apply apply_items_run.
    + now rewrite eq_constraints_app, eq_constraints_eq_calls.
  - intros op s r w' q o Hrun Hin.
    destruct (@run_fresh_trace _ _ _ _ _ _ Hrun Hin) as [_ [-> [_ Htr]]].
    split; [exact Htr | apply built_query_constraints].
Qed.

(** C10. With [None] or the empty mapping as filters,
    [apply_filters_to_query] returns the query it was given and calls
    nothing on it. *)
Theorem no_filters_identity (q : Query) (w : World) :
  apply_filters_to_query q VNone w = (Ok q, w)
  /\ apply_filters_to_query q (VDict []) w = (Ok q, w).
Proof.
  split; reflexivity.
Qed.

(** ** Mandatory arguments of the mutating operations *)

(** C1, as the code has it.  For [update_table_records] and
    [delete_table_records] an explicitly empty filter mapping fails
    validation: a [ValidationError] is raised and nothing is asked of the
    client; the message is "Filters dictionary cannot be empty" when the
    arguments checked before it are valid.  Absent filters ([None]) are not
    rejected: [validate_filters(None)] passes, and with the other arguments
    valid the operation raises no [ValidationError]. *)
Theorem filters_of_update_and_delete :
  (forall t updates w,
      exists msg,
        update_table_records t updates (VDict []) w
        = (Raise (ValidationError msg []), w))
  /\ (forall t w,
        exists msg,
          delete_table_records t (VDict []) w
          = (Raise (ValidationError msg []), w))
  /\ (forall t updates w,
        validate_table_name t = Ok tt ->
        validate_updates updates = Ok tt ->
        update_table_records t updates (VDict []) w
        = (Raise (ValidationError empty_filters_message []), w))
  /\ (forall t w,
        validate_table_name t = Ok tt ->
        delete_table_records t (VDict []) w
        = (Raise (ValidationError empty_filters_message []), w))
  /\ validate_filters VNone = Ok tt
  /\ (forall t updates w msg d,
        validate_table_name t = Ok tt ->
        validate_updates updates = Ok tt ->
        fst (update_table_records t updates VNone w)
        <> Raise (ValidationError msg d))
  /\ (forall t w msg d,
        validate_table_name t = Ok tt ->
        fst (delete_table_records t VNone w)
        <> Raise (ValidationError msg d)).
Proof.
  split; [|split; [|split; [|split; [|split; [|split]]]]].
  - intros t updates w. unfold update_table_records, bind, lift.
    destruct (validate_table_name t) as [[]|e] eqn:Ht.
    + destruct (validate_updates updates) as [[]|e] eqn:Hu.
      * eexists. reflexivity.
      * apply validate_updates_raises in Hu as [msg ->]. eauto.
    + apply validate_table_name_raises in Ht as [msg ->]. eauto.
  - intros t w. unfold delete_table_records, bind, lift.
    destruct (validate_table_name t) as [[]|e] eqn:Ht.
    + eexists. reflexivity.
    + apply validate_table_name_raises in Ht as [msg ->]. eauto.
  - intros t updates w Ht Hu. unfold update_table_records, bind, lift.
    now rewrite Ht, Hu.
  - intros t w Ht. unfold delete_table_records, bind, lift.
    now rewrite Ht.
  - reflexivity.
  - intros t updates w msg d Ht Hu H.
    destruct (update_table_records t updates VNone w) as [r w'] eqn:E.
    simpl in H. subst r. apply update_as_run in E.
    rewrite run_skeleton in E. unfold checks in E.
    rewrite Ht, Hu in E. simpl in E.
    destruct (execute _ _) as [o s']. injection E as E _.
    now apply finish_not_validation in E.
  - intros t w msg d Ht H.
    destruct (delete_table_records t VNone w) as [r w'] eqn:E.
    simpl in H. subst r. apply delete_as_run in E.
    rewrite run_skeleton in E. unfold checks in E.
    rewrite Ht in E. simpl in E.
    destruct (execute _ _) as [o s']. injection E as E _.
    now apply finish_not_validation in E.
Qed.

(** C9, as the code has it.  [create_table_records] validates the table
    name first and rejects empty or null records next: with a table name
    that passes, empty or null records raise [ValidationError] "Records
    cannot be empty" before anything is asked of the client; with a table
    name that does not pass, the table-name error is the one raised. *)
Theorem records_checked_after_table_name (t records : PyValue) (w : World) :
  truthy records = false ->
  (validate_table_name t = Ok tt ->
   create_table_records t records w
   = (Raise (ValidationError empty_records_message []), w))
  /\ (validate_table_name t <> Ok tt ->
      create_table_records t records w
      = (Raise (ValidationError table_name_message []), w)).
Proof.
  intros Hr. unfold create_table_records, bind, lift. split.
  - intros ->. now rewrite Hr.
  - intros Ht. unfold validate_table_name in *.
    destruct t; try reflexivity.
    destruct (_ || _); [reflexivity | contradiction].
Qed.

(** * Further properties of the code *)

(** ** The remaining validators *)

(** [validate_filters] accepts [None] and non-empty dictionaries and
    nothing else.  A value that is not a dictionary is reported as such even
    when it is empty; only the empty dictionary is reported as empty. *)
Theorem validate_filters_spec (v : PyValue) :
  (validate_filters v = Ok tt
   <-> v = VNone \/ exists item items, v = VDict (item :: items))
  /\ (v = VDict [] ->
      validate_filters v = Raise (ValidationError empty_filters_message []))
  /\ (v <> VNone -> is_dict v = false ->
      validate_filters v
      = Raise (ValidationError "Filters must be a dictionary" [])).
Proof.
  split; [split|split].
  - apply validate_filters_ok.
  - intros [-> | [item [items ->]]]; reflexivity.
  - intros ->. reflexivity.
  - intros Hn Hd. destruct v; try reflexivity; try contradiction.
    discriminate.
Qed.

(** [validate_updates] accepts non-empty dictionaries and nothing else;
    unlike filters, [None] is rejected, as not being a dictionary. *)
Theorem validate_updates_spec (v : PyValue) :
  (validate_updates v = Ok tt
   <-> exists item items, v = VDict (item :: items))
  /\ (v = VDict [] ->
      validate_updates v
      = Raise (ValidationError "Updates dictionary cannot be empty" []))
  /\ (is_dict v = false ->
      validate_updates v
      = Raise (ValidationError "Updates must be a dictionary" [])).
Proof.
  split; [split|split].
  - destruct v; simpl; try discriminate.
    destruct items as [|item items]; simpl; [discriminate|]. eauto.
  - intros [item [items ->]]. reflexivity.
  - intros ->. reflexivity.
  - intros Hd. destruct v; try reflexivity. discriminate.
Qed.

(** ** What an operation does to the world *)

(** The two courses an operation can take. *)
Lemma run_cases (op : Operation) (w : World) (r : Result Returns)
      (w' : World) :
  run op w = (r, w') ->
  (exists e, checks op = Raise e /\ r = Raise e /\ w' = w)
  \/ (checks op = Ok tt
      /\ exists o,
          execute (built_query op) (w_store w) = (o, w_store w')
          /\ r = finish op o
          /\ w_trace w'
             = (w_trace w ++ map Built (built_query op)
                  ++ [Executed (built_query op) o])%list).
Proof.
  rewrite run_skeleton. destruct (checks op) as [[]|e].
  - simpl. destruct (execute (built_query op) (w_store w)) as [o s'] eqn:E.
    intros [= <- <-]. right. split; [reflexivity|].
    exists o. simpl. repeat split; reflexivity.
  - intros [= <- <-]. left. eauto.
Qed.

Lemma read_as_run t columns filters limit order_by ascending w r w' :
  read_table_rows t columns filters limit order_by ascending w = (r, w') ->
  run (OpRead t columns filters limit order_by ascending) w
  = (as_rows r, w').
Proof.
  intros H. unfold run, bind, ret. rewrite H. now destruct r.
Qed.


(** An invalid table name is reported as such by every operation, whatever
    the other arguments are, and nothing is asked of the client. *)
Theorem invalid_table_name_wins (op : Operation) (w : World) :
  validate_table_name (op_table op) <> Ok tt ->
  run op w = (Raise (ValidationError table_name_message []), w).
Proof.
  intros H. rewrite run_skeleton.
  assert (E : validate_table_name (op_table op)
              = Raise (ValidationError table_name_message [])).
  { unfold validate_table_name in *. destruct (op_table op); try reflexivity.
    destruct (_ || _); [reflexivity | contradiction]. }
  destruct op; simpl in *; now rewrite E.
Qed.

(** ** Reading *)

Lemma read_fresh_trace t columns filters limit order_by ascending s r w' q o :
  read_table_rows t columns filters limit order_by ascending (fresh s)
  = (r, w') ->
  In (Executed q o) (w_trace w') ->
  checks (OpRead t columns filters limit order_by ascending) = Ok tt
  /\ q = built_query (OpRead t columns filters limit order_by ascending)
  /\ as_rows r
     = finish (OpRead t columns filters limit order_by ascending) o
  /\ w_trace w' = (map Built q ++ [Executed q o])%list.
Proof.
  intros H Hin. apply read_as_run in H.
  exact (@run_fresh_trace _ _ _ _ _ _ H Hin).
Qed.

(** [read_table_rows] hands back the rows of the store as they are, not
    wrapped in an envelope; zero rows are an ordinary result, the empty
    list, where the mutating operations answer with an error envelope. *)
Theorem read_returns_rows_unwrapped t columns filters limit order_by
        ascending s r w' q rows :
  read_table_rows t columns filters limit order_by ascending (fresh s)
  = (r, w') ->
  In (Executed q (Returned (Some rows))) (w_trace w') ->
  r = Ok (Some rows).
Proof.
  intros H Hin.
  destruct (@read_fresh_trace _ _ _ _ _ _ _ _ _ _ _ H Hin) as [_ [_ [E _]]].
  destruct r; simpl in E; [now injection E as -> | discriminate].
Qed.

(** When the response of the store carries no data ([data] is [None]),
    [read_table_rows] raises the [TypeError] of [len(None)], from the
    success log line, after the query has been executed; the mutating
    operations return an envelope in that case. *)
Theorem read_null_data_raises t columns filters limit order_by ascending
        s r w' q :
  read_table_rows t columns filters limit order_by ascending (fresh s)
  = (r, w') ->
  In (Executed q (Returned None)) (w_trace w') ->
  r = Raise (TypeError "object of type 'NoneType' has no len()")
  /\ executions (w_trace w') = 1.
Proof.
  intros H Hin.
  destruct (@read_fresh_trace _ _ _ _ _ _ _ _ _ _ _ H Hin) as [_ [_ [E Ht]]].
  split.
  - destruct r; simpl in E; [discriminate | now injection E as ->].
  - rewrite Ht, executions_app, executions_built. reflexivity.
Qed.

(** A limit that passed [validate_limit] is [None] or true in a condition,
    so the [if limit:] of [read_table_rows] skips exactly [None]. *)
Lemma validate_limit_truthy (limit : PyValue) :
  validate_limit limit = Ok tt ->
  truthy limit = match limit with VNone => false | _ => true end.
Proof.
  destruct limit as [|b|n| | | |]; simpl; try discriminate; try reflexivity.
  - now destruct b.
  - destruct (Z.leb_spec n 0); [discriminate|]. intros _.
    destruct (Z.eqb_spec n 0); [lia | reflexivity].
Qed.

(** The query [read_table_rows] executes: the table, the projection, one
    [eq] per filter entry, then [order] if [order_by] is a non-empty
    string, then [limit] if a limit was given.  The table name and the
    column list are passed as they came, untrimmed and unparsed; an empty
    [order_by] is ignored like an absent one; [ascending] is used by
    [order] only. *)
Theorem read_query_shape t columns filters limit order_by ascending
        s r w' q o :
  read_table_rows t columns filters limit order_by ascending (fresh s)
  = (r, w') ->
  In (Executed q o) (w_trace w') ->
  q = ([CTable t; CSelect columns]
         ++ map eq_call (filter_items filters)
         ++ match order_by with
            | Some (String c column) => [COrder (String c column) ascending]
            | _ => []
            end
         ++ match limit with
            | VNone => []
            | _ => [CLimit limit]
            end)%list.
Proof.
  intros H Hin.
  destruct (@read_fresh_trace _ _ _ _ _ _ _ _ _ _ _ H Hin) as [Hc [-> _]].
  assert (Hl : validate_limit limit = Ok tt).
  { simpl in Hc. destruct (validate_table_name t) as [[]|]; [|discriminate].
    simpl in Hc. now destruct (validate_limit limit) as [[]|]. }
  pose proof (@validate_limit_truthy _ Hl) as Ht.
  unfold built_query. rewrite Ht.
  destruct order_by as [[|c column]|]; destruct limit; reflexivity.
Qed.

(** ** Mutating *)

Lemma mutation_fresh_trace (op : Operation) (s : Store)
      (r : Result OperationResponse) (w' : World) (q : Query)
      (o : ExecOutcome) :
  match op with
  | OpRead _ _ _ _ _ _ => False
  | OpCreate t records =>
      create_table_records t records (fresh s) = (r, w')
  | OpUpdate t updates filters =>
      update_table_records t updates filters (fresh s) = (r, w')
  | OpDelete t filters =>
      delete_table_records t filters (fresh s) = (r, w')
  end ->
  In (Executed q o) (w_trace w') ->
  q = built_query op /\ enveloped r = finish op o.
Proof.
  intros H Hin.
  assert (R : run op (fresh s) = (enveloped r, w')).
  { destruct op; [contradiction | now apply create_as_run
                 | now apply update_as_run | now apply delete_as_run]. }
  destruct (@run_fresh_trace _ _ _ _ _ _ R Hin) as [_ [-> [E _]]].
  now split.
Qed.

(** The queries the mutating operations execute: [create] makes a single
    [insert] call with the records as given, a dictionary or a whole list;
    [update] calls [update] with the updates and then one [eq] per filter
    entry; [delete] calls [delete] and then one [eq] per filter entry. *)
Theorem mutation_query_shape :
  (forall t records s r w' q o,
      create_table_records t records (fresh s) = (r, w') ->
      In (Executed q o) (w_trace w') ->
      q = [CTable t; CInsert records])
  /\ (forall t updates filters s r w' q o,
        update_table_records t updates filters (fresh s) = (r, w') ->
        In (Executed q o) (w_trace w') ->
        q = ([CTable t; CUpdate updates]
               ++ map eq_call (filter_items filters))%list)
  /\ (forall t filters s r w' q o,
        delete_table_records t filters (fresh s) = (r, w') ->
        In (Executed q o) (w_trace w') ->
        q = ([CTable t; CDelete] ++ map eq_call (filter_items filters))%list).
Proof.
  split; [|split].
  - intros t records s r w' q o H Hin.
    now destruct (@mutation_fresh_trace (OpCreate t records) _ _ _ _ _ H Hin).
  - intros t updates filters s r w' q o H Hin.
    now destruct (@mutation_fresh_trace (OpUpdate t updates filters)
                    _ _ _ _ _ H Hin).
  - intros t filters s r w' q o H Hin.
    now destruct (@mutation_fresh_trace (OpDelete t filters) _ _ _ _ _ H Hin).
Qed.

Ltac mutation_outcome op H Hin :=
  let E := fresh "E" in
  destruct (@mutation_fresh_trace op _ _ _ _ _ H Hin) as [_ E];
  match type of E with
  | enveloped ?r = _ =>
      destruct r; simpl in E; [injection E as -> | discriminate]
  end.

(** When rows come back, a mutating operation returns them in an envelope
    whose [count] is their number, whose status is "success" and whose
    message names the operation and the same number in decimal. *)
Theorem mutation_success_envelope :
  (forall t records s r w' q row rest,
      create_table_records t records (fresh s) = (r, w') ->
      In (Executed q (Returned (Some (row :: rest)))) (w_trace w') ->
      r = Ok {| data := Some (row :: rest);
                count := S (length rest);
                status := "success";
                message := Some ("Created " ++ str_of_nat (S (length rest))
                                   ++ " record(s)") |})
  /\ (forall t updates filters s r w' q row rest,
        update_table_records t updates filters (fresh s) = (r, w') ->
        In (Executed q (Returned (Some (row :: rest)))) (w_trace w') ->
        r = Ok {| data := Some (row :: rest);
                  count := S (length rest);
                  status := "success";
                  message := Some ("Updated " ++ str_of_nat (S (length rest))
                                     ++ " record(s)") |})
  /\ (forall t filters s r w' q row rest,
        delete_table_records t filters (fresh s) = (r, w') ->
        In (Executed q (Returned (Some (row :: rest)))) (w_trace w') ->
        r = Ok {| data := Some (row :: rest);
                  count := S (length rest);
                  status := "success";
                  message := Some ("Deleted " ++ str_of_nat (S (length rest))
                                     ++ " record(s)") |}).
Proof.
  split; [|split].
  - intros t records s r w' q row rest H Hin.
    mutation_outcome (OpCreate t records) H Hin. reflexivity.
  - intros t updates filters s r w' q row rest H Hin.
    mutation_outcome (OpUpdate t updates filters) H Hin. reflexivity.
  - intros t filters s r w' q row rest H Hin.
    mutation_outcome (OpDelete t filters) H Hin. reflexivity.
Qed.

(** When the response of the store carries no data ([data] is [None]), a
    mutating operation raises nothing: it returns the error envelope with
    [data] still [None] and [count] 0. *)
Theorem mutation_null_data_envelope :
  (forall t records s r w' q,
      create_table_records t records (fresh s) = (r, w') ->
      In (Executed q (Returned None)) (w_trace w') ->
      r = Ok {| data := None; count := 0; status := "error";
                message := Some "No records were created" |})
  /\ (forall t updates filters s r w' q,
        update_table_records t updates filters (fresh s) = (r, w') ->
        In (Executed q (Returned None)) (w_trace w') ->
        r = Ok {| data := None; count := 0; status := "error";
                  message := Some "No records were updated" |})
  /\ (forall t filters s r w' q,
        delete_table_records t filters (fresh s) = (r, w') ->
        In (Executed q (Returned None)) (w_trace w') ->
        r = Ok {| data := None; count := 0; status := "error";
                  message := Some "No records were deleted" |}).
Proof.
  split; [|split].
  - intros t records s r w' q H Hin.
    mutation_outcome (OpCreate t records) H Hin. reflexivity.
  - intros t updates filters s r w' q H Hin.
    mutation_outcome (OpUpdate t updates filters) H Hin. reflexivity.
  - intros t filters s r w' q H Hin.
    mutation_outcome (OpDelete t filters) H Hin. reflexivity.
Qed.

Lemma wrap_invariants (d : option TableData) (done none : string) :
  count (wrap d done none)
  = length (match d with Some rows => rows | None => [] end)
  /\ (status (wrap d done none) = "success" <-> 0 < count (wrap d done none))
  /\ (status (wrap d done none) = "success"
      \/ status (wrap d done none) = "error")
  /\ message (wrap d done none) <> None.
Proof.
  destruct d as [[|row rows]|]; simpl; repeat split;
    try discriminate; try lia; auto.
Qed.

Lemma run_envelope_is_wrap (op : Operation) (w w' : World)
      (resp : OperationResponse) :
  run op w = (Ok (Envelope resp), w') ->
  exists d done none, resp = wrap d done none.
Proof.
  intros H. apply run_cases in H as [[e [_ [H _]]] | [_ [o [_ [H _]]]]];
    [discriminate|].
  destruct o as [m|d]; [discriminate|].
  destruct op; simpl in H; try (destruct d; discriminate);
    injection H as ->; eauto.
Qed.

(** Every envelope a mutating operation returns is coherent: [count] is
    the number of rows in [data] (0 when [data] is [None]), the status is
    "success" or "error", it is "success" exactly when [count] is positive,
    and a message is always present. *)
Theorem envelope_coherent :
  forall resp : OperationResponse,
    (exists t records w w',
        create_table_records t records w = (Ok resp, w'))
    \/ (exists t updates filters w w',
          update_table_records t updates filters w = (Ok resp, w'))
    \/ (exists t filters w w',
          delete_table_records t filters w = (Ok resp, w')) ->
    count resp
    = length (match data resp with Some rows => rows | None => [] end)
    /\ (status resp = "success" <-> 0 < count resp)
    /\ (status resp = "success" \/ status resp = "error")
    /\ message resp <> None.
Proof.
  intros resp H.
  assert (W : exists d done none, resp = wrap d done none).
  { destruct H as [[t [x [w [w' H]]]]
                  | [[t [u [f [w [w' H]]]]] | [t [f [w [w' H]]]]]].
    - apply create_as_run in H. exact (@run_envelope_is_wrap _ _ _ _ H).
    - apply update_as_run in H. exact (@run_envelope_is_wrap _ _ _ _ H).
    - apply delete_as_run in H. exact (@run_envelope_is_wrap _ _ _ _ H). }
  destruct W as [d [done [none ->]]].
  rewrite wrap_data. apply wrap_invariants.
Qed.

(** Records that are true in a condition but are neither a dictionary nor
    something with a length (a number, [True]) make [create_table_records]
    raise [TypeError], not [ValidationError], from the record count it
    computes for its log line; nothing is asked of the client. *)
Theorem create_unsized_records (t records : PyValue) (w : World) :
  validate_table_name t = Ok tt ->
  truthy records = true ->
  is_dict records = false ->
  py_len records = None ->
  exists msg,
    create_table_records t records w = (Raise (TypeError msg), w).
Proof.
  intros Ht Hr Hd Hl. unfold create_table_records, bind, lift, ret, raise.
  rewrite Ht, Hr, Hd, Hl. simpl. eauto.
Qed.

(** ** Filters of any type *)

(** [apply_filters_to_query] never touches the store.  It returns the
    query unchanged for every value that is false in a condition, of
    whatever type ([None], [{}], but also [0], [""], [[]] and [False]);
    it applies the entries of a non-empty dictionary; and on any other
    value it raises [AttributeError], having called nothing. *)
Theorem apply_filters_any_value (q : Query) (filters : PyValue) (w : World) :
  w_store (snd (apply_filters_to_query q filters w)) = w_store w
  /\ (truthy filters = false ->
      apply_filters_to_query q filters w = (Ok q, w))
  /\ (truthy filters = true -> is_dict filters = true ->
      fst (apply_filters_to_query q filters w)
      = Ok (q ++ map eq_call (filter_items filters))%list)
  /\ (truthy filters = true -> is_dict filters = false ->
      exists msg,
        apply_filters_to_query q filters w = (Raise (AttributeError msg), w)).
Proof.
  unfold apply_filters_to_query. split; [|split; [|split]].
  - destruct (truthy filters); [|reflexivity].
    destruct filters; try reflexivity. now rewrite apply_items_run.
  - intros ->. reflexivity.
  - intros -> Hd. destruct filters; try discriminate.
    now rewrite apply_items_run.
  - intros -> Hd. destruct filters; try discriminate; eexists; reflexivity.
Qed.

(** ** The tools *)

Lemma run_tool_run (op : Operation) (w : World) :
  run_tool op w
  = (match fst (run op w) with
     | Ok v => Ok v
     | Raise e =>
         Raise (if is_domain_error e then e
                else unexpected_error (op_table op) (op_name op) e)
     end,
     snd (run op w)).
Proof.
  destruct op; unfold run_tool, run, mcp_read_table_rows,
    mcp_create_table_records, mcp_update_table_records,
    mcp_delete_table_records, tool_guard, try_except, bind, ret, raise;
    simpl;
    match goal with
    | |- context [read_table_rows ?a ?b ?c ?d ?e ?f ?w] =>
        destruct (read_table_rows a b c d e f w) as [[v|e'] w']
    | |- context [create_table_records ?a ?b ?w] =>
        destruct (create_table_records a b w) as [[v|e'] w']
    | |- context [update_table_records ?a ?b ?c ?w] =>
        destruct (update_table_records a b c w) as [[v|e'] w']
    | |- context [delete_table_records ?a ?b ?w] =>
        destruct (delete_table_records a b w) as [[v|e'] w']
    end;
    try reflexivity; destruct e'; reflexivity.
Qed.

(** An operation raises a built-in exception only once the table name has
    passed validation. *)
Lemma builtin_error_after_validation (op : Operation) (w w' : World)
      (e : PyExn) :
  run op w = (Raise e, w') ->
  is_domain_error e = false ->
  exists t, op_table op = VStr t.
Proof.
  intros H He. apply validate_table_name_ok.
  apply run_cases in H as [[e' [Hc [[= <-] _]]] | [Hc _]].
  - destruct op; simpl in *;
      destruct (validate_table_name table_name) as [[]|e0] eqn:Ht;
      try reflexivity; simpl in Hc; inversion Hc; subst;
      apply validate_table_name_raises in Ht as [msg ->]; discriminate.
  - destruct op; simpl in *;
      destruct (validate_table_name table_name) as [[]|e0] eqn:Ht;
      try reflexivity; discriminate.
Qed.

(** A tool raises [ValidationError] or [QueryExecutionError] and nothing
    else: the built-in exceptions of the operations never reach the
    caller. *)
Theorem tools_raise_domain_errors_only (op : Operation) (w w' : World)
        (e : PyExn) :
  run_tool op w = (Raise e, w') ->
  is_domain_error e = true.
Proof.
  rewrite run_tool_run. destruct (run op w) as [[v|e0] w0]; simpl;
    [discriminate|].
  intros [= <- _]. destruct e0; reflexivity.
Qed.

(** A tool does to the world what its operation does, returns what it
    returns and raises its [ValidationError] or [QueryExecutionError]
    unchanged.  Any other exception [e] of the operation is replaced by a
    [QueryExecutionError] with the message "Unexpected error: " followed by
    [str(e)], the table name, the name of the operation and no details. *)
Theorem tool_outcome (op : Operation) (w : World) (r : Result Returns)
        (w' : World) :
  run op w = (r, w') ->
  snd (run_tool op w) = w'
  /\ (forall v, r = Ok v -> fst (run_tool op w) = Ok v)
  /\ (forall e, r = Raise e -> is_domain_error e = true ->
                fst (run_tool op w) = Raise e)
  /\ (forall e, r = Raise e -> is_domain_error e = false ->
                exists t,
                  op_table op = VStr t
                  /\ fst (run_tool op w)
                     = Raise (QueryExecutionError
                                ("Unexpected error: " ++ exn_str e)
                                t (op_name op) [])).
Proof.
  intros H. rewrite run_tool_run, H. simpl.
  split; [reflexivity | split; [|split]].
  - now intros v ->.
  - now intros e -> ->.
  - intros e -> He. rewrite He.
    destruct (@builtin_error_after_validation _ _ _ _ H He) as [t Ht].
    exists t. split; [exact Ht|].
    unfold unexpected_error. now rewrite Ht.
Qed.

(** A tool that raises [ValidationError] has asked nothing of the client:
    the store and the trace are as they were. *)
Theorem tool_validation_before_client (op : Operation) (w w' : World)
        (msg : string) (d : Details) :
  run_tool op w = (Raise (ValidationError msg d), w') -> w' = w.
Proof.
  rewrite run_tool_run. destruct (run op w) as [[v|e] w0] eqn:R; simpl;
    [discriminate|].
  intros [= He <-].
  assert (e = ValidationError msg d) as ->.
  { destruct e; simpl in He; try discriminate; exact He. }
  apply run_cases in R as [[e' [_ [_ ->]]] | [_ [o [_ [Hf _]]]]];
    [reflexivity|].
  symmetry in Hf. now apply finish_not_validation in Hf.
Qed.

(** ** Entering the lifespan *)

(** The lifespan yields a context exactly when both environment variables
    are set and non-empty and [create_client], called with their values,
    returns a client; the operations of the context then use that same
    client.  If a variable is missing or empty the error is the fixed
    "Missing environment variables" message whatever [create_client] would
    do, and if [create_client] raises, its message follows "Failed to
    initialize Supabase client: ". *)
Theorem lifespan_enter_spec (C : Type) (getenv : string -> option string)
        (create_client : string -> string -> Created C) :
  (forall ctx,
      supabase_lifespan_enter getenv create_client = Yields ctx
      <-> exists url key,
          getenv ENV_SUPABASE_URL = Some url /\ url <> EmptyString
          /\ getenv ENV_SUPABASE_SERVICE_KEY = Some key /\ key <> EmptyString
          /\ create_client url key = ClientReady (client ctx)
          /\ ops_client (db_ops ctx) = client ctx)
  /\ (env_missing (getenv ENV_SUPABASE_URL) = true
      \/ env_missing (getenv ENV_SUPABASE_SERVICE_KEY) = true ->
      supabase_lifespan_enter getenv create_client
      = ConfigurationError MISSING_ENV_VARS [])
  /\ (forall url key original,
        getenv ENV_SUPABASE_URL = Some url -> url <> EmptyString ->
        getenv ENV_SUPABASE_SERVICE_KEY = Some key -> key <> EmptyString ->
        create_client url key = ClientFailed original ->
        supabase_lifespan_enter getenv create_client
        = ConfigurationError
            ("Failed to initialize Supabase client: " ++ original) []).
Proof.
  unfold supabase_lifespan_enter.
  split; [|split].
  - intros ctx. split.
    + destruct (getenv ENV_SUPABASE_URL) as [[|c url]|];
        destruct (getenv ENV_SUPABASE_SERVICE_KEY) as [[|c' key]|];
        simpl; try discriminate.
      destruct (create_client (String c url) (String c' key)) eqn:E;
        [|discriminate].
      intros [= <-]. simpl.
      exists (String c url), (String c' key).
      repeat split; try discriminate; assumption.
    + intros [url [key [-> [Hu [-> [Hk [Hc Ho]]]]]]].
      destruct url; [contradiction|]. destruct key; [contradiction|].
      simpl. rewrite Hc. destruct ctx as [cl [oc]]. simpl in *.
      now subst.
  - intros [H | H].
    + now rewrite H.
    + rewrite H. now rewrite orb_true_r.
  - intros url key original -> Hu -> Hk Hc.
    destruct url; [contradiction|]. destruct key; [contradiction|].
    simpl. now rewrite Hc.
Qed.

End Client.

Arguments mkWorld {Store} _ _.

(** * The operations on concrete stores *)

(** ** Scenarios of the test suite *)

Example read_with_filter_scenario :
  read_table_rows one_row_store (VStr "users") DEFAULT_COLUMNS
                  (VDict [("active", VBool true)]) VNone None
                  DEFAULT_ASCENDING (fresh 0)
  = (Ok (Some [[("id", VInt 1); ("name", VStr "Test")]]),
     mkWorld 1
       [Built (CTable (VStr "users")); Built (CSelect "*");
        Built (CEq "active" (VBool true));
        Executed [CTable (VStr "users"); CSelect "*";
                  CEq "active" (VBool true)]
                 (Returned (Some [[("id", VInt 1); ("name", VStr "Test")]]))]).
Proof. reflexivity. Qed.

Example create_single_scenario :
  fst (create_table_records one_row_store (VStr "users")
                            (VDict [("name", VStr "John")]) (fresh 0))
  = Ok {| data := Some [[("id", VInt 1); ("name", VStr "Test")]];
          count := 1;
          status := "success";
          message := Some "Created 1 record(s)" |}.
Proof. reflexivity. Qed.

Example delete_on_broken_store_scenario :
  fst (delete_table_records broken_store (VStr "users")
                            (VDict [("id", VInt 999)]) (fresh 0))
  = Raise (QueryExecutionError
             "Failed to execute delete on table 'users': Database error"
             "users" "delete" [("original_error", "Database error")]).
Proof. reflexivity. Qed.

(** ** Instances of the theorems *)

Lemma validation_before_client_witness :
  run no_match_store
      (OpRead (VStr "users") "*" VNone (VInt (-1)) None true) (fresh 0)
  = (Raise (ValidationError limit_message []), fresh 0)
  /\ snd (run no_match_store
              (OpRead (VStr "users") "*" VNone (VInt (-1)) None true)
              (fresh 0))
     = fresh 0.
Proof.
  split; [reflexivity|].
  apply (@validation_before_client nat no_match_store
           (OpRead (VStr "users") "*" VNone (VInt (-1)) None true)
           (fresh 0) _ limit_message []).
  reflexivity.
Defined.

Lemma execute_failure_surfaces_witness :
  exists t,
    VStr "users" = VStr t
    /\ @Raise Returns (execution_failure "delete" "users" "Database error")
       = Raise (QueryExecutionError
                  ("Failed to execute " ++ "delete" ++ " on table '" ++ t
                     ++ "'" ++ ": " ++ "Database error")
                  t "delete" [("original_error", "Database error")])
    /\ executions
         [Built (CTable (VStr "users")); Built CDelete;
          Built (CEq "id" (VInt 999));
          Executed [CTable (VStr "users"); CDelete; CEq "id" (VInt 999)]
                   (Raised "Database error")]
       = 1.
Proof.
  apply (@execute_failure_surfaces nat broken_store
           (OpDelete (VStr "users") (VDict [("id", VInt 999)])) 0
           (Raise (execution_failure "delete" "users" "Database error"))
           (mkWorld 1
              [Built (CTable (VStr "users")); Built CDelete;
               Built (CEq "id" (VInt 999));
               Executed [CTable (VStr "users"); CDelete; CEq "id" (VInt 999)]
                        (Raised "Database error")])
           [CTable (VStr "users"); CDelete; CEq "id" (VInt 999)]
           "Database error").
  - reflexivity.
  - simpl. right; right; right; left. reflexivity.
Defined.

Lemma envelope_status_spec_witness :
  success_iff_rows
    {| data := Some [[("id", VInt 1); ("name", VStr "Test")]];
       count := 1;
       status := "success";
       message := Some "Created 1 record(s)" |}
  /\ Ok {| data := Some []; count := 0; status := "error";
           message := Some "No records were updated" |}
     = Ok (no_rows_envelope "No records were updated").
Proof.
  destruct (envelope_status_spec no_match_store) as [_ [_ [_ [_ [Hu _]]]]].
  split.
  - apply (proj1 (envelope_status_spec one_row_store)
             (VStr "users") (VDict [("name", VStr "John")]) (fresh 0) _
             (mkWorld 1
                [Built (CTable (VStr "users"));
                 Built (CInsert (VDict [("name", VStr "John")]));
                 Executed [CTable (VStr "users");
                           CInsert (VDict [("name", VStr "John")])]
                          (Returned
                             (Some [[("id", VInt 1); ("name", VStr "Test")]]))])).
    reflexivity.
  - apply (Hu (VStr "users") (VDict [("name", VStr "X")])
              (VDict [("id", VInt 1)]) 0 _
              (mkWorld 1
                 [Built (CTable (VStr "users"));
                  Built (CUpdate (VDict [("name", VStr "X")]));
                  Built (CEq "id" (VInt 1));
                  Executed [CTable (VStr "users");
                            CUpdate (VDict [("name", VStr "X")]);
                            CEq "id" (VInt 1)]
                           (Returned (Some []))])
              [CTable (VStr "users"); CUpdate (VDict [("name", VStr "X")]);
               CEq "id" (VInt 1)]).
    + reflexivity.
    + simpl. right; right; right; left. reflexivity.
Defined.

Lemma filters_become_constraints_witness :
  [Built (CTable (VStr "users")); Built (CSelect "*");
   Built (CEq "active" (VBool true));
   Executed [CTable (VStr "users"); CSelect "*"; CEq "active" (VBool true)]
            (Returned (Some [[("id", VInt 1); ("name", VStr "Test")]]))]
  = (map Built [CTable (VStr "users"); CSelect "*";
                CEq "active" (VBool true)]
       ++ [Executed [CTable (VStr "users"); CSelect "*";
                     CEq "active" (VBool true)]
                    (Returned
                       (Some [[("id", VInt 1); ("name", VStr "Test")]]))])%list
  /\ eq_constraints [CTable (VStr "users"); CSelect "*";
                     CEq "active" (VBool true)]
     = [("active", VBool true)].
Proof.
  apply (proj2 (filters_become_constraints one_row_store)
           (OpRead (VStr "users") "*" (VDict [("active", VBool true)]) VNone
                   None true)
           0
           (Ok (Rows (Some [[("id", VInt 1); ("name", VStr "Test")]])))
           (mkWorld 1
              [Built (CTable (VStr "users")); Built (CSelect "*");
               Built (CEq "active" (VBool true));
               Executed [CTable (VStr "users"); CSelect "*";
                         CEq "active" (VBool true)]
                        (Returned
                           (Some [[("id", VInt 1); ("name", VStr "Test")]]))])
           [CTable (VStr "users"); CSelect "*"; CEq "active" (VBool true)]
           (Returned (Some [[("id", VInt 1); ("name", VStr "Test")]]))).
  - reflexivity.
  - simpl. right; right; right; left. reflexivity.
Defined.

(** C1 fails on the code: with [filters=None], [update_table_records] and
    [delete_table_records] raise nothing; each builds its query without any
    constraint and executes it. *)
Lemma absent_filters_counterexample :
  update_table_records no_match_store (VStr "users")
                       (VDict [("name", VStr "X")]) VNone (fresh 0)
  = (Ok (no_rows_envelope "No records were updated"),
     mkWorld 1
       [Built (CTable (VStr "users"));
        Built (CUpdate (VDict [("name", VStr "X")]));
        Executed [CTable (VStr "users"); CUpdate (VDict [("name", VStr "X")])]
                 (Returned (Some []))])
  /\ delete_table_records no_match_store (VStr "users") VNone (fresh 0)
     = (Ok (no_rows_envelope "No records were deleted"),
        mkWorld 1
          [Built (CTable (VStr "users")); Built CDelete;
           Executed [CTable (VStr "users"); CDelete] (Returned (Some []))])
  /\ ~ (exists msg d,
          update_table_records no_match_store (VStr "users")
                               (VDict [("name", VStr "X")]) VNone (fresh 0)
          = (Raise (ValidationError msg d), fresh 0)).
Proof.
  split; [reflexivity | split; [reflexivity|]].
  intros [msg [d H]]. discriminate H.
Qed.

Lemma filters_of_update_and_delete_witness :
  update_table_records no_match_store (VStr "users")
                       (VDict [("name", VStr "X")]) (VDict []) (fresh 0)
  = (Raise (ValidationError empty_filters_message []), fresh 0)
  /\ delete_table_records no_match_store (VStr "users") (VDict []) (fresh 0)
     = (Raise (ValidationError empty_filters_message []), fresh 0)
  /\ fst (update_table_records no_match_store (VStr "users")
                               (VDict [("name", VStr "X")]) VNone (fresh 0))
     <> Raise (ValidationError empty_filters_message [])
  /\ fst (delete_table_records no_match_store (VStr "users") VNone (fresh 0))
     <> Raise (ValidationError empty_filters_message []).
Proof.
  destruct (filters_of_update_and_delete no_match_store)
    as [_ [_ [Hu [Hd [_ [Hun Hdn]]]]]].
  split; [|split; [|split]].
  - apply Hu; reflexivity.
  - apply Hd; reflexivity.
  - apply Hun; reflexivity.
  - apply Hdn; reflexivity.
Defined.

(** C9 fails on the code: with an empty table name and empty records, the
    error raised is the table-name one. *)
Lemma empty_records_counterexample :
  create_table_records one_row_store (VStr "") (VDict []) (fresh 0)
  = (Raise (ValidationError "Table name cannot be empty" []), fresh 0)
  /\ create_table_records one_row_store VNone VNone (fresh 0)
     = (Raise (ValidationError "Table name cannot be empty" []), fresh 0)
  /\ fst (create_table_records one_row_store (VStr "") (VDict []) (fresh 0))
     <> Raise (ValidationError "Records cannot be empty" []).
Proof.
  split; [reflexivity | split; [reflexivity | discriminate]].
Qed.

Lemma records_checked_after_table_name_witness :
  create_table_records one_row_store (VStr "users") (VDict []) (fresh 0)
  = (Raise (ValidationError empty_records_message []), fresh 0)
  /\ create_table_records one_row_store (VStr "  ") (VList []) (fresh 0)
     = (Raise (ValidationError table_name_message []), fresh 0).
Proof.
  split.
  - apply (proj1 (@records_checked_after_table_name nat one_row_store
                    (VStr "users") (VDict []) (fresh 0) eq_refl)).
    reflexivity.
  - apply (proj2 (@records_checked_after_table_name nat one_row_store
                    (VStr "  ") (VList []) (fresh 0) eq_refl)).
    discriminate.
Defined.

(** ** Instances of the further properties *)

Lemma validate_filters_spec_witness :
  validate_filters sample_filters = Ok tt
  /\ validate_filters (VDict [])
     = Raise (ValidationError empty_filters_message [])
  /\ validate_filters (VList [])
     = Raise (ValidationError "Filters must be a dictionary" []).
Proof.
  split; [|split].
  - apply (proj1 (validate_filters_spec sample_filters)).
    right. exists ("active", VBool true), []. reflexivity.
  - apply (proj1 (proj2 (validate_filters_spec (VDict [])))). reflexivity.
  - apply (proj2 (proj2 (validate_filters_spec (VList []))));
      [discriminate | reflexivity].
Defined.

Lemma validate_updates_spec_witness :
  validate_updates sample_updates = Ok tt
  /\ validate_updates (VDict [])
     = Raise (ValidationError "Updates dictionary cannot be empty" [])
  /\ validate_updates VNone
     = Raise (ValidationError "Updates must be a dictionary" []).
Proof.
  split; [|split].
  - apply (proj1 (validate_updates_spec sample_updates)).
    exists ("name", VStr "X"), []. reflexivity.
  - apply (proj1 (proj2 (validate_updates_spec (VDict [])))). reflexivity.
  - apply (proj2 (proj2 (validate_updates_spec VNone))). reflexivity.
Defined.


Lemma invalid_table_name_wins_witness :
  run one_row_store (OpRead (VStr "  ") "*" (VDict []) (VInt 0) None true)
      (fresh 0)
  = (Raise (ValidationError table_name_message []), fresh 0).
Proof.
  apply (@invalid_table_name_wins nat one_row_store
           (OpRead (VStr "  ") "*" (VDict []) (VInt 0) None true) (fresh 0)).
  discriminate.
Defined.

Lemma read_returns_rows_unwrapped_witness :
  fst (read_table_rows no_match_store (VStr "users") "*" VNone VNone None
                       true (fresh 0))
  = Ok (Some []).
Proof.
  apply (@read_returns_rows_unwrapped nat no_match_store
           (VStr "users") "*" VNone VNone None true 0 _
           (snd (read_table_rows no_match_store (VStr "users") "*" VNone
                                 VNone None true (fresh 0)))
           [CTable (VStr "users"); CSelect "*"] []).
  - reflexivity.
  - simpl. auto.
Defined.

Lemma read_null_data_raises_witness :
  fst (read_table_rows null_data_store (VStr "users") "*" VNone VNone None
                       true (fresh 0))
  = Raise (TypeError "object of type 'NoneType' has no len()")
  /\ executions
       (w_trace (snd (read_table_rows null_data_store (VStr "users") "*"
                                      VNone VNone None true (fresh 0))))
     = 1.
Proof.
  apply (@read_null_data_raises nat null_data_store
           (VStr "users") "*" VNone VNone None true 0 _ _
           [CTable (VStr "users"); CSelect "*"]).
  - reflexivity.
  - simpl. auto.
Defined.

Lemma read_query_shape_witness :
  [CTable (VStr "users"); CSelect "id,name"; CEq "active" (VBool true);
   COrder "created_at" false; CLimit (VInt 10)]
  = ([CTable (VStr "users"); CSelect "id,name"]
       ++ map eq_call (filter_items sample_filters)
       ++ [COrder "created_at" false]
       ++ [CLimit (VInt 10)])%list.
Proof.
  eapply (@read_query_shape nat one_row_store
           (VStr "users") "id,name" sample_filters (VInt 10)
           (Some "created_at") false 0 _ _
           [CTable (VStr "users"); CSelect "id,name";
            CEq "active" (VBool true); COrder "created_at" false;
            CLimit (VInt 10)]
           (Returned (Some [[("id", VInt 1); ("name", VStr "Test")]]))).
  - reflexivity.
  - simpl. auto 10.
Defined.

Lemma mutation_query_shape_witness :
  [CTable (VStr "users"); CInsert sample_records]
  = [CTable (VStr "users"); CInsert sample_records]
  /\ [CTable (VStr "users"); CUpdate sample_updates; CEq "id" (VInt 1)]
     = ([CTable (VStr "users"); CUpdate sample_updates]
          ++ map eq_call (filter_items (VDict [("id", VInt 1)])))%list.
Proof.
  destruct (mutation_query_shape two_row_store) as [Hc [Hu _]].
  split.
  - eapply (Hc (VStr "users") sample_records 0 _ _ _
               (Returned (Some [[("id", VInt 1)]; [("id", VInt 2)]]))).
    + reflexivity.
    + simpl. auto.
  - eapply (Hu (VStr "users") sample_updates (VDict [("id", VInt 1)]) 0 _ _ _
               (Returned (Some [[("id", VInt 1)]; [("id", VInt 2)]]))).
    + reflexivity.
    + simpl. auto 10.
Defined.

Lemma mutation_success_envelope_witness :
  fst (create_table_records two_row_store (VStr "users") sample_records
                            (fresh 0))
  = Ok {| data := Some [[("id", VInt 1)]; [("id", VInt 2)]];
          count := 2;
          status := "success";
          message := Some "Created 2 record(s)" |}.
Proof.
  eapply (proj1 (mutation_success_envelope two_row_store)
            (VStr "users") sample_records 0 _ _
            [CTable (VStr "users"); CInsert sample_records]
            [("id", VInt 1)] [[("id", VInt 2)]]).
  - reflexivity.
  - simpl. auto.
Defined.

Lemma mutation_null_data_envelope_witness :
  fst (delete_table_records null_data_store (VStr "users")
                            (VDict [("id", VInt 1)]) (fresh 0))
  = Ok {| data := None; count := 0; status := "error";
          message := Some "No records were deleted" |}.
Proof.
  eapply (proj2 (proj2 (mutation_null_data_envelope null_data_store))
            (VStr "users") (VDict [("id", VInt 1)]) 0 _ _
            [CTable (VStr "users"); CDelete; CEq "id" (VInt 1)]).
  - reflexivity.
  - simpl. auto 10.
Defined.

Lemma envelope_coherent_witness :
  count (no_rows_envelope "No records were updated")
  = length (match data (no_rows_envelope "No records were updated") with
            | Some rows => rows
            | None => []
            end)
  /\ (status (no_rows_envelope "No records were updated") = "success"
      <-> 0 < count (no_rows_envelope "No records were updated"))
  /\ (status (no_rows_envelope "No records were updated") = "success"
      \/ status (no_rows_envelope "No records were updated") = "error")
  /\ message (no_rows_envelope "No records were updated") <> None.
Proof.
  apply (envelope_coherent no_match_store).
  right; left.
  exists (VStr "users"), sample_updates, (VDict [("id", VInt 1)]), (fresh 0).
  eexists. reflexivity.
Defined.

Lemma create_unsized_records_witness :
  exists msg,
    create_table_records one_row_store (VStr "users") (VInt 5) (fresh 0)
    = (Raise (TypeError msg), fresh 0).
Proof.
  apply (@create_unsized_records nat one_row_store (VStr "users") (VInt 5)
           (fresh 0)); reflexivity.
Defined.

Lemma apply_filters_any_value_witness :
  apply_filters_to_query [CTable (VStr "users"); CDelete] (VInt 0) (fresh 0)
  = (Ok [CTable (VStr "users"); CDelete], fresh 0)
  /\ fst (apply_filters_to_query [CTable (VStr "users"); CDelete]
                                 sample_filters (fresh 0))
     = Ok ([CTable (VStr "users"); CDelete]
             ++ map eq_call (filter_items sample_filters))%list
  /\ exists msg,
      apply_filters_to_query [CTable (VStr "users"); CDelete]
                             (VList [VStr "id"]) (fresh 0)
      = (Raise (AttributeError msg), fresh 0).
Proof.
  split; [|split].
  - apply (proj1 (proj2 (apply_filters_any_value
                           [CTable (VStr "users"); CDelete] (VInt 0)
                           (fresh 0)))).
    reflexivity.
  - apply (proj1 (proj2 (proj2 (apply_filters_any_value
                                  [CTable (VStr "users"); CDelete]
                                  sample_filters (fresh 0)))));
      reflexivity.
  - apply (proj2 (proj2 (proj2 (apply_filters_any_value
                                  [CTable (VStr "users"); CDelete]
                                  (VList [VStr "id"]) (fresh 0)))));
      reflexivity.
Defined.

Lemma tools_raise_domain_errors_only_witness :
  is_domain_error
    (QueryExecutionError
       "Unexpected error: object of type 'NoneType' has no len()"
       "users" "read" [])
  = true.
Proof.
  apply (@tools_raise_domain_errors_only nat null_data_store
           (OpRead (VStr "users") "*" VNone VNone None true) (fresh 0)
           (snd (run_tool null_data_store
                          (OpRead (VStr "users") "*" VNone VNone None true)
                          (fresh 0)))).
  reflexivity.
Defined.

Lemma tool_outcome_witness :
  snd (run_tool null_data_store
                (OpRead (VStr "users") "*" VNone VNone None true) (fresh 0))
  = mkWorld 1
      [Built (CTable (VStr "users")); Built (CSelect "*");
       Executed [CTable (VStr "users"); CSelect "*"] (Returned None)]
  /\ exists t,
      VStr "users" = VStr t
      /\ fst (run_tool null_data_store
                       (OpRead (VStr "users") "*" VNone VNone None true)
                       (fresh 0))
         = Raise (QueryExecutionError
                    ("Unexpected error: "
                       ++ exn_str
                            (TypeError
                               "object of type 'NoneType' has no len()"))
                    t "read" []).
Proof.
  destruct (@tool_outcome nat null_data_store
              (OpRead (VStr "users") "*" VNone VNone None true) (fresh 0)
              (Raise (TypeError "object of type 'NoneType' has no len()"))
              (mkWorld 1
                 [Built (CTable (VStr "users")); Built (CSelect "*");
                  Executed [CTable (VStr "users"); CSelect "*"]
                           (Returned None)])
              eq_refl) as [Hw [_ [_ Hu]]].
  split; [exact Hw|].
  apply (Hu (TypeError "object of type 'NoneType' has no len()"));
    reflexivity.
Defined.

Lemma tool_validation_before_client_witness :
  snd (run_tool one_row_store
                (OpUpdate (VStr "users") (VDict []) sample_filters) (fresh 0))
  = fresh 0.
Proof.
  apply (@tool_validation_before_client nat one_row_store
           (OpUpdate (VStr "users") (VDict []) sample_filters) (fresh 0) _
           "Updates dictionary cannot be empty" []).
  reflexivity.
Defined.

Lemma lifespan_enter_spec_witness :
  supabase_lifespan_enter example_env recording_client
  = Yields {| client := ("https://example.supabase.co", "mock-service-key");
              db_ops := {| ops_client := ("https://example.supabase.co",
                                          "mock-service-key") |} |}
  /\ supabase_lifespan_enter (fun _ => Some "") recording_client
     = ConfigurationError MISSING_ENV_VARS [].
Proof.
  split.
  - apply (proj1 (lifespan_enter_spec example_env recording_client)).
    exists "https://example.supabase.co", "mock-service-key".
    repeat split; try reflexivity; discriminate.
  - apply (proj1 (proj2 (lifespan_enter_spec (fun _ => Some "")
                                              recording_client))).
    left. reflexivity.
Defined.
